(** * DORA engineering metrics: a shallow embedding of [dora.py]

    The class [DORAMetricsCalculator] of [src/dora.py] is embedded function by
    function.  Python exceptions are an explicit outcome, [print] and
    [datetime.now] act on an explicit interpreter state, and the Azure DevOps
    clients reached through [self.connection.clients] are records of
    functions supplied by the environment.  Floating-point results are
    represented by the rational number they stand for ([Qc], rationals in
    lowest terms). *)

From stdpp Require Import gmap strings list fin_maps pretty sorting.
From Stdlib Require Import Ascii QArith Qcanon Qround ZArith Lia.

Local Open Scope Z_scope.

(** ** Exceptions and outcomes *)

(** The classes of [Exception] that the modelled calls raise.  Every one is a
    subclass of [Exception], hence caught by [except Exception]. *)
Inductive exn_class : Set :=
  | OverflowError
  | TypeError
  | ValueError
  | AttributeError
  | ImportError
  | AzureDevOpsServiceError
  | ClientRequestError.

Record exn : Set := Exn { exn_cls : exn_class; exn_msg : string }.

(** [str(e)] *)
Definition str (e : exn) : string := exn_msg e.

(** A Python call either returns a value or raises. *)
Inductive outcome (A : Type) : Type :=
  | Return (a : A)
  | Raise (e : exn).
Arguments Return {A} a.
Arguments Raise {A} e.

(** ** Interpreter state: standard output and the wall clock *)

Record world : Type := World {
  stdout : list string;      (* lines written by [print], oldest first *)
  clock_reads : nat          (* how many times [datetime.now()] was called *)
}.

(** A computation threads the interpreter state and may raise. *)
Definition M (A : Type) : Type := world -> world * outcome A.

Definition ret {A} (a : A) : M A := fun w => (w, Return a).
Definition bind {A B} (c : M A) (k : A -> M B) : M B :=
  fun w => match c w with
           | (w', Return a) => k a w'
           | (w', Raise e) => (w', Raise e)
           end.
(** A call into a collaborator: state is untouched, the outcome is the
    collaborator's. *)
Definition call {A} (o : outcome A) : M A := fun w => (w, o).

(** [print(s)] *)
Definition print (s : string) : M unit :=
  fun w => (World (stdout w ++ [s]) (clock_reads w), Return tt).

(** [try: body / except Exception as e: handler e] *)
Definition try_except {A} (body : M A) (handler : exn -> M A) : M A :=
  fun w => match body w with
           | (w', Return a) => (w', Return a)
           | (w', Raise e) => handler e w'
           end.

Declare Scope py_scope.
Delimit Scope py_scope with py.
Notation "x <- c ;; k" := (bind c (fun x => k))
  (at level 100, c at next level, right associativity) : py_scope.
Notation "c ;;; k" := (bind c (fun _ => k))
  (at level 100, right associativity) : py_scope.
Local Open Scope py_scope.

(** ** [datetime] and [timedelta]

    A naive [datetime] is the number of microseconds since
    0001-01-01T00:00:00 ([datetime.min]); a [timedelta] is a signed number of
    microseconds.  This is the representation Python's own arithmetic is
    defined on (ordinal day, then time of day). *)

Definition datetime : Set := Z.
Definition timedelta : Set := Z.

Definition US_PER_SECOND : Z := 1000000.
Definition US_PER_DAY : Z := 86400 * US_PER_SECOND.
(** [date.max.toordinal()] *)
Definition MAXORDINAL : Z := 3652059.
(** [datetime.max - datetime.min], in microseconds *)
Definition MAX_US : Z := MAXORDINAL * US_PER_DAY - 1.
(** [timedelta.max.days] *)
Definition MAX_DELTA_DAYS : Z := 999999999.

(** [timedelta(days=d)].  A number of days out of range is refused with one
    of two messages, according to whether it fits a C [int]. *)
Definition timedelta_days (d : Z) : outcome timedelta :=
  if Z.abs d <=? MAX_DELTA_DAYS then Return (d * US_PER_DAY)
  else if (- 2 ^ 31 <=? d) && (d <? 2 ^ 31)
  then Raise (Exn OverflowError
                ("days=" +:+ pretty d +:+ "; must have magnitude <= 999999999"))
  else Raise (Exn OverflowError "Python int too large to convert to C int").

(** [t - td] for a datetime [t] and a timedelta [td] *)
Definition datetime_sub (t : datetime) (td : timedelta) : outcome datetime :=
  let r := t - td in
  if (0 <=? r) && (r <=? MAX_US) then Return r
  else Raise (Exn OverflowError "date value out of range").

(** [a - b] for two datetimes *)
Definition datetime_diff (a b : datetime) : timedelta := a - b.

(** [td.total_seconds()] *)
Definition total_seconds (td : timedelta) : Qc :=
  Q2Qc (Qmake td (Z.to_pos US_PER_SECOND)).

(** [t.date()]: the calendar day, as the number of whole days since
    0001-01-01. *)
Definition date (t : datetime) : Z := t / US_PER_DAY.

(** [_ymd2ord] and the [datetime] constructor of CPython's [datetime.py], used
    to write concrete timestamps by their calendar reading. *)
Definition is_leap (y : Z) : bool :=
  (y mod 4 =? 0) && (negb (y mod 100 =? 0) || (y mod 400 =? 0)).
Definition days_before_year (y : Z) : Z :=
  let p := y - 1 in p * 365 + p / 4 - p / 100 + p / 400.
Definition days_before_month (y m : Z) : Z :=
  nth (Z.to_nat m) [0; 0; 31; 59; 90; 120; 151; 181; 212; 243; 273; 304; 334] 0
  + (if (2 <? m) && is_leap y then 1 else 0).
Definition ymd2ord (y m d : Z) : Z :=
  days_before_year y + days_before_month y m + d.
Definition mk_datetime (y m d hh mm ss us : Z) : datetime :=
  (ymd2ord y m d - 1) * US_PER_DAY + ((hh * 60 + mm) * 60 + ss) * US_PER_SECOND + us.

(** The parts of the runtime the calculator reads but does not define. *)
Record Runtime : Type := {
  (** the value the [n]-th call of [datetime.now()] returns *)
  clock : nat -> datetime;
  (** [t.strftime("%Y-%m-%d")] *)
  strftime_ymd : datetime -> string;
  (** [datetime.strptime(s, '%Y-%m-%dT%H:%M:%S.%fZ')] *)
  strptime_iso : string -> outcome datetime;
  (** [s.lower()] *)
  str_lower : string -> string;
  (** [from azure.devops.v7_0.work_item_tracking.models import Wiql] *)
  import_Wiql : outcome unit
}.

(** [datetime.now()] *)
Definition datetime_now (rt : Runtime) : M datetime :=
  fun w => (World (stdout w) (S (clock_reads w)), Return (clock rt (clock_reads w))).

(** ** Strings *)

(** The folding of the ASCII letters: [A]..[Z] to [a]..[z], every other
    character unchanged.  [str.lower] itself is [str_lower] of the runtime;
    it folds every cased letter, and agrees with this folding on ASCII
    text. *)
Definition lower_ascii (c : ascii) : ascii :=
  let n := nat_of_ascii c in
  if ((65 <=? n) && (n <=? 90))%nat then ascii_of_nat (n + 32) else c.

(** The ASCII folding of a string. *)
Fixpoint lower (s : string) : string :=
  match s with
  | EmptyString => EmptyString
  | String c s' => String (lower_ascii c) (lower s')
  end.

Definition nl : string := String (ascii_of_nat 10) EmptyString.

(** ** numpy and pandas *)

Definition Qcleb (x y : Qc) : bool := Qle_bool x y.

Fixpoint insert_sorted (x : Qc) (l : list Qc) : list Qc :=
  match l with
  | [] => [x]
  | y :: l' => if Qcleb x y then x :: y :: l' else y :: insert_sorted x l'
  end.

(** [np.sort] *)
Definition sort (l : list Qc) : list Qc := foldr insert_sorted [] l.

(** [np.median(l)] for a non-empty [l]: the middle element of the sorted
    values, or the mean of the two middle ones. *)
Definition median (l : list Qc) : Qc :=
  let s := sort l in
  let n := length s in
  if Nat.even n
  then ((nth (n / 2 - 1)%nat s 0 + nth (n / 2)%nat s 0) / Qc_of_Z 2)%Qc
  else nth (n / 2)%nat s 0%Qc.

(** [pd.Series(l).value_counts()]: one entry per distinct value, with the
    number of its occurrences.  (pandas orders the entries by decreasing
    count; the only consumer here is [mean], which does not observe the
    order.) *)
Definition count_of (x : Z) (l : list Z) : Z :=
  Z.of_nat (length (filter (fun y => y = x) l)).
Definition value_counts (l : list Z) : list (Z * Z) :=
  map (fun x => (x, count_of x l)) (remove_dups l).

Definition sum_Z (l : list Z) : Z := foldr Z.add 0 l.

(** [Series.mean()] of integer counts *)
Definition mean (l : list Z) : Qc :=
  (Qc_of_Z (sum_Z l) / Qc_of_Z (Z.of_nat (length l)))%Qc.

(** ** Azure DevOps records and clients *)

(** An attribute of a Python object: absent, present and [None], or present
    with a value. *)
Inductive attr (A : Type) : Type :=
  | NoAttr
  | AttrNone
  | AttrValue (a : A).
Arguments NoAttr {A}.
Arguments AttrNone {A}.
Arguments AttrValue {A} a.

Record GitRepository : Set := {
  repo_name : string;        (* [repo.name] *)
  repo_id : string           (* [repo.id] *)
}.

Record Build : Set := {
  build_id : Z;              (* [build.id] *)
  finish_time : datetime;    (* [build.finish_time] *)
  build_result : string      (* [build.result] *)
}.

Record Change : Set := {
  timestamp : attr datetime  (* [change.timestamp] *)
}.

Record WorkItemReference : Set := {
  ref_id : Z                 (* [work_item_ref.id] *)
}.

Record WorkItem : Type := {
  fields : gmap string string   (* [work_item.fields] *)
}.

Record GitClient : Type := {
  (** [get_repositories(project)] *)
  get_repositories : string -> outcome (list GitRepository)
}.

Record BuildClient : Type := {
  (** [get_builds(project, min_time, max_time, status_filter,
      result_filter, branch_name)]; [result_filter] is [None] when the
      keyword is not passed *)
  get_builds : string -> datetime -> datetime -> string -> option string ->
               string -> outcome (list Build);
  (** [get_build_changes(project, build_id)] *)
  get_build_changes : string -> Z -> outcome (list Change)
}.

Record WorkItemTrackingClient : Type := {
  (** [query_by_wiql(Wiql(query=q)).work_items]; a [None] result counts as
      the empty list, both being falsy *)
  query_by_wiql : string -> outcome (list WorkItemReference);
  (** [get_work_item(id)] *)
  get_work_item : Z -> outcome WorkItem
}.

(** [self.connection.clients] *)
Record Connection : Type := {
  get_git_client : outcome GitClient;
  get_build_client : outcome BuildClient;
  get_work_item_tracking_client : outcome WorkItemTrackingClient
}.

Record DORAMetricsCalculator : Type := {
  connection : Connection
}.

(** Truth value of [repo_id] in [if repo_id:]: [None] and the empty string
    are false. *)
Definition truthy (o : option string) : bool :=
  match o with
  | Some s => negb (String.eqb s "")
  | None => false
  end.

(** ** The methods of [DORAMetricsCalculator] *)

Section Calculator.

Variable rt : Runtime.
Variable self : DORAMetricsCalculator.

(** The [for repo in repositories] loop of [get_repository_id]. *)
Fixpoint find_repository (repositories : list GitRepository)
    (repository_name : string) : option string :=
  match repositories with
  | [] => None
  | repo :: rest =>
      if String.eqb (str_lower rt (repo_name repo))
                    (str_lower rt repository_name)
      then Some (repo_id repo)
      else find_repository rest repository_name
  end.

Definition get_repository_id (project_name repository_name : string)
    : M (option string) :=
  git_client <- call (get_git_client (connection self));;
  repositories <- call (get_repositories git_client project_name);;
  ret (find_repository repositories repository_name).

Definition branch_ref (branch_name : string) : string :=
  "refs/heads/" +:+ branch_name.

Definition get_deployment_frequency
    (project_name repository_name branch_name : string)
    (start_date end_date : datetime) : M Qc :=
  builds_client <- call (get_build_client (connection self));;
  builds <- call (get_builds builds_client project_name start_date end_date
                    "completed" (Some "succeeded") (branch_ref branch_name));;
  let deploy_dates := map (fun b => date (finish_time b)) builds in
  ret (match deploy_dates with
       | [] => 0%Qc
       | _ => mean (map snd (value_counts deploy_dates))
       end).

(** [(deploy_time - commit_time).total_seconds() / 3600] *)
Definition lead_hours (deploy_time commit_time : datetime) : Qc :=
  (total_seconds (datetime_diff deploy_time commit_time) / Qc_of_Z 3600)%Qc.

(** The [for change in changes] loop.  [lead_times] is the list the loop
    appends to; it is handed back also when the loop raises, since what was
    appended stays appended. *)
Fixpoint for_changes (build : Build) (changes : list Change)
    (lead_times : list Qc) : list Qc * outcome unit :=
  match changes with
  | [] => (lead_times, Return tt)
  | change :: rest =>
      match timestamp change with
      | NoAttr => for_changes build rest lead_times
      | AttrNone =>
          (lead_times,
           Raise (Exn TypeError
             "unsupported operand type(s) for -: 'datetime.datetime' and 'NoneType'"))
      | AttrValue commit_time =>
          for_changes build rest
            (lead_times ++ [lead_hours (finish_time build) commit_time])
      end
  end.

(** The body of the [try] inside the build loop. *)
Definition try_build_changes (builds_client : BuildClient)
    (project_name : string) (build : Build) (lead_times : list Qc)
    : list Qc * outcome unit :=
  match get_build_changes builds_client project_name (build_id build) with
  | Raise e => (lead_times, Raise e)
  | Return changes => for_changes build changes lead_times
  end.

(** The [for build in builds] loop. *)
Fixpoint for_builds (builds_client : BuildClient) (project_name : string)
    (repo_id : option string) (builds : list Build) (lead_times : list Qc)
    : M (list Qc) :=
  match builds with
  | [] => ret lead_times
  | build :: rest =>
      if truthy repo_id then
        match try_build_changes builds_client project_name build lead_times with
        | (lead_times', Return _) =>
            for_builds builds_client project_name repo_id rest lead_times'
        | (lead_times', Raise e) =>
            print ("Error processing build " +:+ pretty (build_id build)
                   +:+ ": " +:+ str e);;;
            for_builds builds_client project_name repo_id rest lead_times'
        end
      else for_builds builds_client project_name repo_id rest lead_times
  end.

(** [np.median(l) if l else 0] *)
Definition median_or_0 (l : list Qc) : Qc :=
  match l with
  | [] => 0%Qc
  | _ => median l
  end.

Definition get_lead_time_for_changes
    (project_name repository_name branch_name : string)
    (start_date end_date : datetime) : M Qc :=
  builds_client <- call (get_build_client (connection self));;
  git_client <- call (get_git_client (connection self));;
  repo_id <- get_repository_id project_name repository_name;;
  builds <- call (get_builds builds_client project_name start_date end_date
                    "completed" (Some "succeeded") (branch_ref branch_name));;
  lead_times <- for_builds builds_client project_name repo_id builds [];;
  ret (median_or_0 lead_times).

Definition get_change_failure_rate
    (project_name repository_name branch_name : string)
    (start_date end_date : datetime) : M Qc :=
  builds_client <- call (get_build_client (connection self));;
  builds <- call (get_builds builds_client project_name start_date end_date
                    "completed" None (branch_ref branch_name));;
  let total_deployments := Z.of_nat (length builds) in
  let failed_deployments :=
    Z.of_nat (length (filter (fun b => build_result b = "failed") builds)) in
  ret (if 0 <? total_deployments
       then (Qc_of_Z failed_deployments / Qc_of_Z total_deployments
             * Qc_of_Z 100)%Qc
       else 0%Qc).

(** The text of the WIQL query, as the f-string lays it out. *)
Definition wiql_line (s : string) : string := "            " +:+ s +:+ nl.
Definition wiql_query (project_name start_str end_str branch_name : string)
    : string :=
  nl
  +:+ wiql_line "SELECT [System.Id]"
  +:+ wiql_line "FROM WorkItems"
  +:+ wiql_line ("WHERE [System.TeamProject] = '" +:+ project_name +:+ "'")
  +:+ wiql_line "AND [System.WorkItemType] = 'Bug'"
  +:+ wiql_line "AND [System.State] = 'Closed'"
  +:+ wiql_line ("AND [System.ChangedDate] >= '" +:+ start_str +:+ "'")
  +:+ wiql_line ("AND [System.ChangedDate] <= '" +:+ end_str +:+ "'")
  +:+ wiql_line ("AND [System.Tags] CONTAINS '" +:+ branch_name +:+ "'")
  +:+ wiql_line "ORDER BY [System.ChangedDate] DESC"
  +:+ "            ".

(** [(closed_date - created_date).total_seconds() / 3600] *)
Definition restore_hours (closed_date created_date : datetime) : Qc :=
  (total_seconds (datetime_diff closed_date created_date) / Qc_of_Z 3600)%Qc.

(** The [for work_item_ref in query_results] loop. *)
Fixpoint for_work_items (work_client : WorkItemTrackingClient)
    (query_results : list WorkItemReference) (restoration_times : list Qc)
    : M (list Qc) :=
  match query_results with
  | [] => ret restoration_times
  | work_item_ref :: rest =>
      work_item <- call (get_work_item work_client (ref_id work_item_ref));;
      match fields work_item !! "System.CreatedDate",
            fields work_item !! "System.ChangedDate" with
      | Some created, Some changed =>
          created_date <- call (strptime_iso rt created);;
          closed_date <- call (strptime_iso rt changed);;
          for_work_items work_client rest
            (restoration_times ++ [restore_hours closed_date created_date])
      | _, _ => for_work_items work_client rest restoration_times
      end
  end.

(** The body of the [try] of [get_time_to_restore]. *)
Definition time_to_restore_body
    (project_name repository_name branch_name : string)
    (start_date end_date : datetime) : M Qc :=
  work_client <- call (get_work_item_tracking_client (connection self));;
  git_client <- call (get_git_client (connection self));;
  call (import_Wiql rt);;;
  let start_str := strftime_ymd rt start_date in
  let end_str := strftime_ymd rt end_date in
  repo_id <- get_repository_id project_name repository_name;;
  query_results <- call (query_by_wiql work_client
                     (wiql_query project_name start_str end_str branch_name));;
  match query_results with
  | [] => ret 0%Qc
  | _ =>
      restoration_times <- for_work_items work_client query_results [];;
      ret (median_or_0 restoration_times)
  end.

Definition get_time_to_restore
    (project_name repository_name branch_name : string)
    (start_date end_date : datetime) : M Qc :=
  try_except
    (time_to_restore_body project_name repository_name branch_name
       start_date end_date)
    (fun e => print ("Error in get_time_to_restore: " +:+ str e);;; ret 0%Qc).

(** Lines 154-155 of [get_all_metrics]: the time window. *)
Record TimeWindow : Set := { window_start : datetime; window_end : datetime }.

Definition resolve_window (days_back : Z) : M TimeWindow :=
  end_date <- datetime_now rt;;
  delta <- call (timedelta_days days_back);;
  start_date <- call (datetime_sub end_date delta);;
  ret {| window_start := start_date; window_end := end_date |}.

Definition get_all_metrics
    (project_name repository_name branch_name : string) (days_back : Z)
    : M (gmap string Qc) :=
  window <- resolve_window days_back;;
  let start_date := window_start window in
  let end_date := window_end window in
  deployment_frequency <-
    get_deployment_frequency project_name repository_name branch_name
      start_date end_date;;
  lead_time_for_changes <-
    get_lead_time_for_changes project_name repository_name branch_name
      start_date end_date;;
  change_failure_rate <-
    get_change_failure_rate project_name repository_name branch_name
      start_date end_date;;
  time_to_restore <-
    get_time_to_restore project_name repository_name branch_name
      start_date end_date;;
  ret (<["deployment_frequency" := deployment_frequency]>
       (<["lead_time_for_changes" := lead_time_for_changes]>
        (<["change_failure_rate" := change_failure_rate]>
         (<["time_to_restore" := time_to_restore]> ∅)))).

End Calculator.

(** ** What the specification calls things *)

(** Two characters are the same letter when they are equal or are the upper
    and lower case of one ASCII letter. *)
Definition is_upper (c : ascii) : Prop :=
  (65 <= nat_of_ascii c <= 90)%nat.
Definition same_letter (a b : ascii) : Prop :=
  a = b
  \/ (is_upper a /\ nat_of_ascii b = (nat_of_ascii a + 32)%nat)
  \/ (is_upper b /\ nat_of_ascii a = (nat_of_ascii b + 32)%nat).

(** Equality of names ignoring case. *)
Inductive eq_ignore_case : string -> string -> Prop :=
  | eic_empty : eq_ignore_case EmptyString EmptyString
  | eic_cons a b s t :
      same_letter a b -> eq_ignore_case s t ->
      eq_ignore_case (String a s) (String b t).

(** Text made of ASCII characters only. *)
Fixpoint ascii_text (s : string) : bool :=
  match s with
  | EmptyString => true
  | String c s' => (nat_of_ascii c <? 128)%nat && ascii_text s'
  end.

(** What [str.lower] guarantees about ASCII: on ASCII text it is the folding
    of the ASCII letters, and two texts that differ only in the case of ASCII
    letters have the same lower-case form. *)
Definition lowers_ascii (rt : Runtime) : Prop :=
  (forall s, ascii_text s = true -> str_lower rt s = lower s)
  /\ (forall a b, eq_ignore_case a b -> str_lower rt a = str_lower rt b).

(** [r] is the id of the first listed repository whose name is the [same] as
    the requested one, or [None] when no listed repository has such a
    name. *)
Definition first_match (same : string -> string -> Prop)
    (listed : list GitRepository) (repository_name : string)
    (r : option string) : Prop :=
  match r with
  | Some id =>
      exists before repo after,
        listed = before ++ repo :: after
        /\ id = repo_id repo
        /\ same (repo_name repo) repository_name
        /\ forall r', In r' before -> ~ same (repo_name r') repository_name
  | None =>
      forall r', In r' listed -> ~ same (repo_name r') repository_name
  end.

(** Equality of the lower-case forms, as [str.lower] gives them. *)
Definition same_lower (rt : Runtime) (a b : string) : Prop :=
  str_lower rt a = str_lower rt b.

(** [failed_count / total_count * 100], and 0 when nothing was counted. *)
Definition failure_rate (failed_count total_count : nat) : Qc :=
  match total_count with
  | O => 0%Qc
  | S _ => (Qc_of_Z (Z.of_nat failed_count) / Qc_of_Z (Z.of_nat total_count)
            * Qc_of_Z 100)%Qc
  end.

(** The per-day counts over a set of calendar days: one entry for each day
    that has at least one deployment, none for the others. *)
Definition per_day_counts (days deploy_dates : list Z) : list Z :=
  filter (fun c => 0 < c) (map (fun d => count_of d deploy_dates) days).

(** The hours from [earlier] to [later]. *)
Definition hours_between (later earlier : datetime) : Qc :=
  Q2Qc (Qmake (later - earlier) (Z.to_pos (3600 * US_PER_SECOND))).

(** The per-change values of one build: one for each change that carries a
    commit timestamp. *)
Definition change_values (build : Build) (changes : list Change) : list Qc :=
  flat_map (fun change =>
              match timestamp change with
              | AttrValue commit_time =>
                  [hours_between (finish_time build) commit_time]
              | _ => []
              end) changes.

(** The flat collection of per-change values across all builds, where
    [changes_of] gives the changes of a build by its id. *)
Definition flat_lead_times (changes_of : Z -> list Change)
    (builds : list Build) : list Qc :=
  flat_map (fun build => change_values build (changes_of (build_id build)))
    builds.

(** The half-open window [[start, end)]. *)
Definition in_window (start_date end_date t : datetime) : bool :=
  (start_date <=? t) && (t <? end_date).

(** The restoration times of the incidents that expose both timestamps and
    whose changed time satisfies [keep]. *)
Definition restoration_values (rt : Runtime) (keep : datetime -> bool)
    (incidents : list WorkItem) : list Qc :=
  flat_map (fun incident =>
              match fields incident !! "System.CreatedDate",
                    fields incident !! "System.ChangedDate" with
              | Some created, Some changed =>
                  match strptime_iso rt created, strptime_iso rt changed with
                  | Return created_date, Return closed_date =>
                      if keep closed_date
                      then [hours_between closed_date created_date]
                      else []
                  | _, _ => []
                  end
              | _, _ => []
              end) incidents.

(** The state after the [except] clause of [get_time_to_restore] has printed
    its diagnostic for [e]. *)
Definition diagnosed (w : world) (e : exn) : world :=
  World (stdout w ++ ["Error in get_time_to_restore: " +:+ str e])
    (clock_reads w).

(** The state after the build loop has printed its diagnostic for [e]. *)
Definition build_diagnosed (w : world) (build : Build) (e : exn) : world :=
  World (stdout w ++ ["Error processing build " +:+ pretty (build_id build)
                      +:+ ": " +:+ str e])
    (clock_reads w).

(** The dictionary [get_all_metrics] returns. *)
Definition metrics_report (deployment_frequency lead_time_for_changes
    change_failure_rate time_to_restore : Qc) : gmap string Qc :=
  <["deployment_frequency" := deployment_frequency]>
  (<["lead_time_for_changes" := lead_time_for_changes]>
   (<["change_failure_rate" := change_failure_rate]>
    (<["time_to_restore" := time_to_restore]> ∅))).

(** [w'] is [w] after some printing: nothing written before is lost and the
    clock has not been read. *)
Definition only_prints (w w' : world) : Prop :=
  clock_reads w' = clock_reads w
  /\ exists out, stdout w' = stdout w ++ out.

(** The collaborators answer every call of the lead-time reducer: the
    repository resolves to a non-empty id, the listing returns [builds], and
    the changes of each build are fetched as [changes_of] gives them, none
    with a [None] timestamp. *)
Definition lead_time_answers (rt : Runtime) (self : DORAMetricsCalculator)
    (project_name repository_name branch_name : string)
    (start_date end_date : datetime)
    (builds : list Build) (changes_of : Z -> list Change) : Prop :=
  exists client git listed,
    get_build_client (connection self) = Return client
    /\ get_git_client (connection self) = Return git
    /\ get_repositories git project_name = Return listed
    /\ truthy (find_repository rt listed repository_name) = true
    /\ get_builds client project_name start_date end_date "completed"
         (Some "succeeded") (branch_ref branch_name) = Return builds
    /\ (forall build, In build builds ->
          get_build_changes client project_name (build_id build)
          = Return (changes_of (build_id build)))
    /\ (forall build change, In build builds ->
          In change (changes_of (build_id build)) ->
          timestamp change <> AttrNone).

(** The collaborators answer every call of the time-to-restore reducer: the
    query returns [refs], each incident is fetched as [item_of] gives it, and
    every date it carries parses. *)
Definition restore_answers (rt : Runtime) (self : DORAMetricsCalculator)
    (project_name branch_name : string) (start_date end_date : datetime)
    (refs : list WorkItemReference) (item_of : Z -> WorkItem) : Prop :=
  exists client git listed,
    get_work_item_tracking_client (connection self) = Return client
    /\ get_git_client (connection self) = Return git
    /\ import_Wiql rt = Return tt
    /\ get_repositories git project_name = Return listed
    /\ query_by_wiql client
         (wiql_query project_name (strftime_ymd rt start_date)
            (strftime_ymd rt end_date) branch_name) = Return refs
    /\ (forall ref, In ref refs ->
          get_work_item client (ref_id ref) = Return (item_of (ref_id ref)))
    /\ (forall ref s, In ref refs ->
          fields (item_of (ref_id ref)) !! "System.CreatedDate" = Some s
          \/ fields (item_of (ref_id ref)) !! "System.ChangedDate" = Some s ->
          exists t, strptime_iso rt s = Return t).

(** The exception, if any, that processing one build raises inside the
    [try] of the build loop. *)
Definition build_failure (client : BuildClient) (project_name : string)
    (build : Build) : option exn :=
  match try_build_changes client project_name build [] with
  | (_, Raise e) => Some e
  | (_, Return _) => None
  end.

(** The diagnostics of the builds whose processing raises, in listing
    order. *)
Definition build_diagnostics (client : BuildClient) (project_name : string)
    (builds : list Build) : list string :=
  flat_map (fun build =>
              match build_failure client project_name build with
              | Some e => ["Error processing build " +:+ pretty (build_id build)
                           +:+ ": " +:+ str e]
              | None => []
              end) builds.

(** Fetching or parsing the incident [ref] fails: the fetch raises, or the
    incident is fetched, exposes both dates, and one of them does not
    parse. *)
Definition incident_fails (rt : Runtime) (client : WorkItemTrackingClient)
    (ref : WorkItemReference) : Prop :=
  (exists e, get_work_item client (ref_id ref) = Raise e)
  \/ (exists item created changed e,
        get_work_item client (ref_id ref) = Return item
        /\ fields item !! "System.CreatedDate" = Some created
        /\ fields item !! "System.ChangedDate" = Some changed
        /\ (strptime_iso rt created = Raise e
            \/ strptime_iso rt changed = Raise e)).

(** ** The command-line program

    Lines 186-206 of the [__main__] block: the construction of the calculator
    and the [try] around [get_all_metrics].  The answers read by [input] and
    the parsed number of days are its arguments. *)

(** What the [try] of the program catches: an exception of the calculator,
    or the [KeyError] of a dictionary lookup. *)
Inductive caught : Type :=
  | Caught (e : exn)
  | KeyError (key : string).

(** [str(e)] *)
Definition str_caught (c : caught) : string :=
  match c with
  | Caught e => str e
  | KeyError key => "'" +:+ key +:+ "'"
  end.

Section Program.

Variable rt : Runtime.
(** [DORAMetricsCalculator(organization_url, personal_access_token)] *)
Variable new_calculator : string -> string -> outcome DORAMetricsCalculator.
(** [f"{x:.2f}"] *)
Variable format_2f : Qc -> string.

(** A statement inside the [try]: it completes, or something is caught. *)
Definition statement : Type := world -> world * option caught.

Definition next (s k : statement) : statement :=
  fun w => match s w with
           | (w', None) => k w'
           | (w', Some c) => (w', Some c)
           end.

(** [print(s)] as a statement *)
Definition say (s : string) : statement :=
  fun w => (fst (print s w), None).

(** [print(f"{label}{metrics[key]:.2f}{suffix}")] *)
Definition say_metric (metrics : gmap string Qc) (label key suffix : string)
    : statement :=
  fun w => match metrics !! key with
           | Some x => say (label +:+ format_2f x +:+ suffix) w
           | None => (w, Some (KeyError key))
           end.

(** The body of the [try]. *)
Definition program_try (calculator : DORAMetricsCalculator)
    (project_name repository_name branch_name : string) (days_back : Z)
    : statement :=
  fun w =>
    match get_all_metrics rt calculator project_name repository_name
            branch_name days_back w with
    | (w1, Raise e) => (w1, Some (Caught e))
    | (w1, Return metrics) =>
        next (say (nl +:+ "DORA Metrics for " +:+ branch_name
                   +:+ " branch in " +:+ repository_name +:+ ":"))
        (next (say ("Time Period: Last " +:+ pretty days_back +:+ " days"))
        (next (say_metric metrics "Deployment Frequency: "
                 "deployment_frequency" " deployments/day")
        (next (say_metric metrics "Lead Time for Changes: "
                 "lead_time_for_changes" " hours")
        (next (say_metric metrics "Change Failure Rate: "
                 "change_failure_rate" "%")
              (say_metric metrics "Time to Restore: "
                 "time_to_restore" " hours"))))) w1
    end.

Definition program (organization_url personal_access_token project_name
    repository_name branch_name : string) (days_back : Z) : M unit :=
  calculator <- call (new_calculator organization_url personal_access_token);;
  fun w =>
    match program_try calculator project_name repository_name branch_name
            days_back w with
    | (w', None) => (w', Return tt)
    | (w', Some c) =>
        print ("Error calculating metrics: " +:+ str_caught c) w'
    end.

End Program.

(** ** A concrete runtime and concrete collaborators

    The fixtures below are the inputs at which the theorems are exercised. *)

Module Fixture.

(** [_ord2ymd] of CPython's [datetime.py]. *)
Definition days_in_month (m : Z) : Z :=
  nth (Z.to_nat m) [0; 31; 28; 31; 30; 31; 30; 31; 31; 30; 31; 30; 31] 0.
Definition ord2ymd (ordinal : Z) : Z * Z * Z :=
  let n := ordinal - 1 in
  let n400 := n / 146097 in
  let n := n mod 146097 in
  let n100 := n / 36524 in
  let n := n mod 36524 in
  let n4 := n / 1461 in
  let n := n mod 1461 in
  let n1 := n / 365 in
  let n := n mod 365 in
  let year := n400 * 400 + 1 + n100 * 100 + n4 * 4 + n1 in
  if (n1 =? 4) || (n100 =? 4) then (year - 1, 12, 31)
  else
    let leapyear := (n1 =? 3) && (negb (n4 =? 24) || (n100 =? 3)) in
    let month := Z.shiftr (n + 50) 5 in
    let preceding :=
      nth (Z.to_nat month) [0; 0; 31; 59; 90; 120; 151; 181; 212; 243; 273; 304; 334] 0
      + (if (2 <? month) && leapyear then 1 else 0) in
    if n <? preceding then
      let month' := month - 1 in
      let preceding' :=
        preceding - (days_in_month month'
                     + (if (month' =? 2) && leapyear then 1 else 0)) in
      (year, month', n - preceding' + 1)
    else (year, month, n - preceding + 1).

Definition pad2 (n : Z) : string :=
  if n <? 10 then "0" +:+ pretty n else pretty n.
Definition pad4 (n : Z) : string :=
  if n <? 10 then "000" +:+ pretty n
  else if n <? 100 then "00" +:+ pretty n
  else if n <? 1000 then "0" +:+ pretty n
  else pretty n.

(** [t.strftime("%Y-%m-%d")] *)
Definition strftime (t : datetime) : string :=
  let '(y, m, d) := ord2ymd (date t + 1) in
  pad4 y +:+ "-" +:+ pad2 m +:+ "-" +:+ pad2 d.

(** [strptime] on the timestamps that occur in the fixtures; any other text
    is rejected. *)
Definition timestamps : list (string * datetime) :=
  [ ("2024-10-05T04:00:00.000000Z", mk_datetime 2024 10 5 4 0 0 0);
    ("2024-10-05T09:00:00.000000Z", mk_datetime 2024 10 5 9 0 0 0);
    ("2024-10-20T08:00:00.000000Z", mk_datetime 2024 10 20 8 0 0 0);
    ("2024-10-20T13:00:00.000000Z", mk_datetime 2024 10 20 13 0 0 0) ].
Definition strptime (s : string) : outcome datetime :=
  match list_find (fun p => fst p = s) timestamps with
  | Some (_, (_, t)) => Return t
  | None =>
      Raise (Exn ValueError
        ("time data '" +:+ s
         +:+ "' does not match format '%Y-%m-%dT%H:%M:%S.%fZ'"))
  end.

(** Invocation time: 2024-11-04 18:00. *)
Definition now : datetime := mk_datetime 2024 11 4 18 0 0 0.

Definition rt : Runtime := {|
  clock := fun _ => now;
  strftime_ymd := strftime;
  strptime_iso := strptime;
  str_lower := lower;
  import_Wiql := Return tt
|}.

Definition w0 : world := World [] 0.

(** What a collaborator raises when the service cannot be reached. *)
Definition unavailable : exn := Exn ClientRequestError "connection refused".

(** *** Source control *)

Definition repositories : list GitRepository :=
  [ {| repo_name := "Docs"; repo_id := "0b1f" |};
    {| repo_name := "WebApp"; repo_id := "6ce9" |} ].

Definition git_client : GitClient :=
  {| get_repositories := fun _ => Return repositories |}.

(** The same repository listed under another id and another casing. *)
Definition git_client_renamed : GitClient :=
  {| get_repositories := fun _ =>
       Return [ {| repo_name := "webapp"; repo_id := "a41c" |} ] |}.

(** The same project with no repository listed. *)
Definition git_client_empty : GitClient :=
  {| get_repositories := fun _ => Return [] |}.

(** *** Pipelines

    A build service holding a store of runs and answering [get_builds] by
    the filters it is passed. *)

Record StoredBuild : Set := {
  sb_build : Build;
  sb_project : string;
  sb_status : string;
  sb_branch : string
}.

Definition matches (project_name : string) (min_time max_time : datetime)
    (status_filter : string) (result_filter : option string)
    (branch_name : string) (sb : StoredBuild) : bool :=
  String.eqb (sb_project sb) project_name
  && (min_time <=? finish_time (sb_build sb))
  && (finish_time (sb_build sb) <=? max_time)
  && String.eqb (sb_status sb) status_filter
  && match result_filter with
     | Some r => String.eqb (build_result (sb_build sb)) r
     | None => true
     end
  && String.eqb (sb_branch sb) branch_name.

Definition serve_builds (store : list StoredBuild) (project_name : string)
    (min_time max_time : datetime) (status_filter : string)
    (result_filter : option string) (branch_name : string)
    : outcome (list Build) :=
  Return (map sb_build
            (List.filter (matches project_name min_time max_time status_filter
                            result_filter branch_name) store)).

Definition run (id : Z) (finished : datetime) (result branch : string)
    : StoredBuild :=
  {| sb_build := {| build_id := id; finish_time := finished;
                    build_result := result |};
     sb_project := "Contoso"; sb_status := "completed"; sb_branch := branch |}.

(** Ten completed runs on [main] inside the window: five succeeded (three on
    10 October, two on 11 October), two cancelled, three failed; one run on
    another branch and one finished before the window. *)
Definition store_a : list StoredBuild :=
  [ run 1 (mk_datetime 2024 10 10 9 0 0 0) "succeeded" "refs/heads/main";
    run 2 (mk_datetime 2024 10 10 12 30 0 0) "succeeded" "refs/heads/main";
    run 3 (mk_datetime 2024 10 11 8 15 0 0) "succeeded" "refs/heads/main";
    run 4 (mk_datetime 2024 10 10 23 59 59 0) "succeeded" "refs/heads/main";
    run 5 (mk_datetime 2024 10 11 17 0 0 0) "succeeded" "refs/heads/main";
    run 6 (mk_datetime 2024 10 12 10 0 0 0) "canceled" "refs/heads/main";
    run 7 (mk_datetime 2024 10 12 11 0 0 0) "canceled" "refs/heads/main";
    run 8 (mk_datetime 2024 10 13 10 0 0 0) "failed" "refs/heads/main";
    run 9 (mk_datetime 2024 10 14 10 0 0 0) "failed" "refs/heads/main";
    run 10 (mk_datetime 2024 10 15 10 0 0 0) "failed" "refs/heads/main";
    run 11 (mk_datetime 2024 10 16 10 0 0 0) "succeeded" "refs/heads/dev";
    run 12 (mk_datetime 2024 9 1 10 0 0 0) "succeeded" "refs/heads/main" ].

Definition build_client_a : BuildClient :=
  {| get_builds := serve_builds store_a;
     get_build_changes := fun _ _ => Return [] |}.

(** One succeeded run, finished 2024-10-20 12:00, whose changes were
    committed one, three and two hours earlier; a fourth change carries no
    timestamp attribute. *)
Definition store_b : list StoredBuild :=
  [ run 101 (mk_datetime 2024 10 20 12 0 0 0) "succeeded" "refs/heads/main" ].

Definition changes_b : list Change :=
  [ {| timestamp := AttrValue (mk_datetime 2024 10 20 11 0 0 0) |};
    {| timestamp := AttrValue (mk_datetime 2024 10 20 9 0 0 0) |};
    {| timestamp := NoAttr |};
    {| timestamp := AttrValue (mk_datetime 2024 10 20 10 0 0 0) |} ].

Definition build_client_b : BuildClient :=
  {| get_builds := serve_builds store_b;
     get_build_changes := fun _ id =>
       if id =? 101 then Return changes_b else Return [] |}.

(** Two succeeded runs; the changes of run 201 cannot be fetched, run 202
    has one change committed four hours before it finished. *)
Definition store_c : list StoredBuild :=
  [ run 201 (mk_datetime 2024 10 21 12 0 0 0) "succeeded" "refs/heads/main";
    run 202 (mk_datetime 2024 10 22 12 0 0 0) "succeeded" "refs/heads/main" ].

Definition build_client_c : BuildClient :=
  {| get_builds := serve_builds store_c;
     get_build_changes := fun _ id =>
       if id =? 201 then Raise unavailable
       else Return [ {| timestamp := AttrValue (mk_datetime 2024 10 22 8 0 0 0) |} ] |}.

(** A build service whose listing call fails. *)
Definition build_client_down : BuildClient :=
  {| get_builds := fun _ _ _ _ _ _ => Raise unavailable;
     get_build_changes := fun _ _ => Raise unavailable |}.

(** *** Work items *)

Definition bug (created changed : string) : WorkItem :=
  {| fields := {[ "System.TeamProject" := "Contoso";
                  "System.WorkItemType" := "Bug";
                  "System.State" := "Closed";
                  "System.CreatedDate" := created;
                  "System.ChangedDate" := changed;
                  "System.Tags" := "main" ]} |}.

(** Bug 7 was closed on 5 October at 09:00, five hours after it was opened;
    bug 8 on 20 October at 13:00, five hours after it was opened. *)
Definition bug7 : WorkItem :=
  bug "2024-10-05T04:00:00.000000Z" "2024-10-05T09:00:00.000000Z".
Definition bug8 : WorkItem :=
  bug "2024-10-20T08:00:00.000000Z" "2024-10-20T13:00:00.000000Z".

(** The query text for project Contoso, changed dates 2024-10-05 to
    2024-11-04 and tag [main]. *)
Definition october_query : string :=
  wiql_query "Contoso" "2024-10-05" "2024-11-04" "main".

(** A tracker that answers that query with bug 7, which satisfies each of
    its clauses, and any other query with nothing. *)
Definition work_client_7 : WorkItemTrackingClient :=
  {| query_by_wiql := fun q =>
       if String.eqb q october_query then Return [ {| ref_id := 7 |} ]
       else Return [];
     get_work_item := fun id =>
       if id =? 7 then Return bug7
       else Raise (Exn AzureDevOpsServiceError "work item does not exist") |}.

(** A tracker that answers with bugs 9 and 8; bug 9 cannot be fetched. *)
Definition work_client_98 : WorkItemTrackingClient :=
  {| query_by_wiql := fun q =>
       if String.eqb q october_query
       then Return [ {| ref_id := 9 |}; {| ref_id := 8 |} ]
       else Return [];
     get_work_item := fun id =>
       if id =? 8 then Return bug8 else Raise unavailable |}.

(** A tracker with no matching bug. *)
Definition work_client_none : WorkItemTrackingClient :=
  {| query_by_wiql := fun _ => Return [];
     get_work_item := fun _ =>
       Raise (Exn AzureDevOpsServiceError "work item does not exist") |}.

(** A tracker whose query call fails. *)
Definition work_client_down : WorkItemTrackingClient :=
  {| query_by_wiql := fun _ => Raise unavailable;
     get_work_item := fun _ => Raise unavailable |}.

(** *** Calculators *)

Definition calculator (g : GitClient) (b : BuildClient)
    (t : WorkItemTrackingClient) : DORAMetricsCalculator :=
  {| connection := {| get_git_client := Return g;
                      get_build_client := Return b;
                      get_work_item_tracking_client := Return t |} |}.

Definition calc_a : DORAMetricsCalculator :=
  calculator git_client build_client_a work_client_7.
Definition calc_b : DORAMetricsCalculator :=
  calculator git_client build_client_b work_client_none.
Definition calc_b_norepo : DORAMetricsCalculator :=
  calculator git_client_empty build_client_b work_client_none.
Definition calc_b_renamed : DORAMetricsCalculator :=
  calculator git_client_renamed build_client_b work_client_none.
Definition calc_c : DORAMetricsCalculator :=
  calculator git_client build_client_c work_client_98.
Definition calc_down : DORAMetricsCalculator :=
  calculator git_client build_client_down work_client_none.

Definition calc_d : DORAMetricsCalculator :=
  calculator git_client build_client_a work_client_down.

Definition b201 : Build :=
  {| build_id := 201; finish_time := mk_datetime 2024 10 21 12 0 0 0;
     build_result := "succeeded" |}.
Definition b202 : Build :=
  {| build_id := 202; finish_time := mk_datetime 2024 10 22 12 0 0 0;
     build_result := "succeeded" |}.

(** *** Reordered and incomplete answers *)

(** The run of [store_b] with its changes listed in another order. *)
Definition build_client_b_shuffled : BuildClient :=
  {| get_builds := serve_builds store_b;
     get_build_changes := fun _ id =>
       if id =? 101 then Return (rev changes_b) else Return [] |}.
Definition calc_b_shuffled : DORAMetricsCalculator :=
  calculator git_client build_client_b_shuffled work_client_none.

(** The runs of [store_a] listed in the opposite order. *)
Definition build_client_a_reversed : BuildClient :=
  {| get_builds := serve_builds (rev store_a);
     get_build_changes := fun _ _ => Return [] |}.
Definition calc_a_reversed : DORAMetricsCalculator :=
  calculator git_client build_client_a_reversed work_client_7.

(** Run 101 with three changes, the second of which has a [None]
    timestamp. *)
Definition changes_e : list Change :=
  [ {| timestamp := AttrValue (mk_datetime 2024 10 20 11 0 0 0) |};
    {| timestamp := AttrNone |};
    {| timestamp := AttrValue (mk_datetime 2024 10 20 9 0 0 0) |} ].
Definition build_client_e : BuildClient :=
  {| get_builds := serve_builds store_b;
     get_build_changes := fun _ _ => Return changes_e |}.
Definition calc_e : DORAMetricsCalculator :=
  calculator git_client build_client_e work_client_none.
Definition b101 : Build :=
  {| build_id := 101; finish_time := mk_datetime 2024 10 20 12 0 0 0;
     build_result := "succeeded" |}.

(** Bug 5 carries no creation date; bug 6 was opened on 5 October at 09:00
    and closed on 20 October at 08:00, 359 hours later. *)
Definition bug5 : WorkItem :=
  {| fields := {[ "System.State" := "Closed";
                  "System.ChangedDate" := "2024-10-20T13:00:00.000000Z";
                  "System.Tags" := "main" ]} |}.
Definition bug6 : WorkItem :=
  bug "2024-10-05T09:00:00.000000Z" "2024-10-20T08:00:00.000000Z".

Definition stored_bug (id : Z) : WorkItem :=
  if id =? 5 then bug5 else if id =? 6 then bug6
  else if id =? 7 then bug7 else bug8.

(** Trackers that answer the October query with the given references. *)
Definition tracker (refs : list Z) : WorkItemTrackingClient :=
  {| query_by_wiql := fun q =>
       if String.eqb q october_query
       then Return (map (fun id => {| ref_id := id |}) refs)
       else Return [];
     get_work_item := fun id => Return (stored_bug id) |}.
Definition calc_t (refs : list Z) : DORAMetricsCalculator :=
  calculator git_client build_client_a (tracker refs).

(** Bug 4 carries a changed date without fractional seconds, which the
    format of [strptime] does not accept; a tracker that answers with bugs 8
    and 4, both of which can be fetched. *)
Definition bug4 : WorkItem :=
  bug "2024-10-20T08:00:00.000000Z" "2024-10-20T13:00:00Z".
Definition work_client_84 : WorkItemTrackingClient :=
  {| query_by_wiql := fun q =>
       if String.eqb q october_query
       then Return [ {| ref_id := 8 |}; {| ref_id := 4 |} ]
       else Return [];
     get_work_item := fun id =>
       if id =? 4 then Return bug4 else Return bug8 |}.
Definition calc_u : DORAMetricsCalculator :=
  calculator git_client build_client_a work_client_84.

(** *** The program

    A constructor that hands out the calculator for an organisation, and the
    two-decimal rendering of a rational (round half to even). *)

Definition new_calculator (calc : DORAMetricsCalculator)
    (organization_url personal_access_token : string)
    : outcome DORAMetricsCalculator :=
  Return calc.

Definition round_half_even (q : Q) : Z :=
  let f := Qfloor q in
  match Qcompare (q - inject_Z f) (1 # 2) with
  | Lt => f
  | Gt => f + 1
  | Eq => if Z.even f then f else f + 1
  end.

Definition format_2f (x : Qc) : string :=
  let n := round_half_even (this x * 100) in
  (if n <? 0 then "-" else "")
  +:+ pretty (Z.abs n / 100) +:+ "." +:+ pad2 (Z.abs n mod 100).

(** The window of a 30-day run at [now]. *)
Definition start : datetime := mk_datetime 2024 10 5 18 0 0 0.

End Fixture.

(** * Theorems *)

Example mk_datetime_ordinal : date (mk_datetime 2024 1 1 0 0 0 0) + 1 = 738886.
Proof. reflexivity. Qed.

Example strftime_examples :
  map Fixture.strftime
    [mk_datetime 2024 10 5 18 0 0 0; mk_datetime 2024 2 29 23 59 59 999999;
     mk_datetime 2023 12 31 0 0 0 0; mk_datetime 2000 3 1 0 0 0 0;
     mk_datetime 1900 2 28 12 0 0 0; mk_datetime 9999 12 31 23 59 59 0;
     mk_datetime 2024 11 4 18 0 0 0]
  = ["2024-10-05"; "2024-02-29"; "2023-12-31"; "2000-03-01"; "1900-02-28";
     "9999-12-31"; "2024-11-04"].
Proof. vm_compute. reflexivity. Qed.

(** ** Case-insensitive comparison *)

Lemma nat_of_lower_ascii (c : ascii) :
  nat_of_ascii (lower_ascii c)
  = (if ((65 <=? nat_of_ascii c) && (nat_of_ascii c <=? 90))%nat
     then nat_of_ascii c + 32 else nat_of_ascii c)%nat.
Proof.
  unfold lower_ascii.
  destruct ((65 <=? nat_of_ascii c) && (nat_of_ascii c <=? 90))%nat eqn:E;
    [|reflexivity].
  apply andb_prop in E as [_ E]. apply Nat.leb_le in E.
  apply nat_ascii_embedding. lia.
Qed.

Lemma nat_of_ascii_inj (a b : ascii) : nat_of_ascii a = nat_of_ascii b -> a = b.
Proof.
  intros H. rewrite <- (ascii_nat_embedding a), <- (ascii_nat_embedding b).
  now rewrite H.
Qed.

Lemma upper_range_reflect (n : nat) :
  reflect (65 <= n <= 90)%nat ((65 <=? n) && (n <=? 90))%nat.
Proof.
  destruct (65 <=? n)%nat eqn:A, (n <=? 90)%nat eqn:B; simpl; constructor;
    rewrite ?Nat.leb_le, ?Nat.leb_gt in *; lia.
Qed.

Lemma lower_ascii_same_letter (a b : ascii) :
  lower_ascii a = lower_ascii b <-> same_letter a b.
Proof.
  unfold same_letter, is_upper. split.
  - intros H. apply (f_equal nat_of_ascii) in H.
    rewrite !nat_of_lower_ascii in H.
    destruct (upper_range_reflect (nat_of_ascii a)) as [Ea|Ea],
             (upper_range_reflect (nat_of_ascii b)) as [Eb|Eb].
    + left. apply nat_of_ascii_inj. lia.
    + right; left. lia.
    + right; right. lia.
    + left. now apply nat_of_ascii_inj.
  - intros H. apply nat_of_ascii_inj. rewrite !nat_of_lower_ascii.
    destruct (upper_range_reflect (nat_of_ascii a)) as [Ea|Ea],
             (upper_range_reflect (nat_of_ascii b)) as [Eb|Eb];
      destruct H as [-> | [[Hu He] | [Hu He]]]; lia.
Qed.

Lemma lower_eq_ignore_case (s t : string) :
  lower s = lower t <-> eq_ignore_case s t.
Proof.
  split.
  - revert t. induction s as [|a s IH]; intros [|b t] H; simpl in H;
      try discriminate; [constructor|].
    injection H as Hc Hs. constructor; [now apply lower_ascii_same_letter|auto].
  - induction 1 as [|a b s t Hab _ IH]; simpl; [reflexivity|].
    f_equal; [now apply lower_ascii_same_letter|exact IH].
Qed.

Lemma find_repository_first_match (rt : Runtime)
    (repositories : list GitRepository) (repository_name : string) :
  first_match (same_lower rt) repositories repository_name
    (find_repository rt repositories repository_name).
Proof.
  unfold first_match, same_lower.
  induction repositories as [|repo rest IH]; simpl.
  - intros r [].
  - destruct (String.eqb_spec (str_lower rt (repo_name repo))
                (str_lower rt repository_name)) as [E|E].
    + exists [], repo, rest. repeat split; [exact E|]. intros r [].
    + destruct (find_repository rt rest repository_name) as [id|].
      * destruct IH as (before & r0 & after & -> & -> & Hm & Hb).
        exists (repo :: before), r0, after. repeat split; [exact Hm|].
        intros r [<-|Hr]; [exact E|auto].
      * intros r [<-|Hr]; [exact E|auto].
Qed.

(** On ASCII names, equality of the lower-case forms is equality ignoring
    case. *)
Lemma same_lower_ascii (rt : Runtime) (a b : string) :
  lowers_ascii rt -> ascii_text a = true -> ascii_text b = true ->
  same_lower rt a b <-> eq_ignore_case a b.
Proof.
  intros [Hl _] Ha Hb. unfold same_lower.
  rewrite (Hl a Ha), (Hl b Hb). apply lower_eq_ignore_case.
Qed.

Lemma first_match_ascii (rt : Runtime) (listed : list GitRepository)
    (repository_name : string) (r : option string) :
  lowers_ascii rt ->
  ascii_text repository_name = true ->
  (forall r', In r' listed -> ascii_text (repo_name r') = true) ->
  first_match (same_lower rt) listed repository_name r ->
  first_match eq_ignore_case listed repository_name r.
Proof.
  intros Hl Hn Ha. unfold first_match. destruct r as [id|].
  - intros (before & repo & after & -> & -> & Hm & Hb).
    exists before, repo, after. repeat split.
    + apply (same_lower_ascii rt); auto. apply Ha, in_elt.
    + intros r' Hr' Hc. apply (Hb r' Hr').
      apply (same_lower_ascii rt); auto. apply Ha, in_or_app. now left.
  - intros Hb r' Hr' Hc. apply (Hb r' Hr').
    apply (same_lower_ascii rt); auto.
Qed.

(** ** Repository lookup *)

(** C10: [get_repository_id] compares names ignoring case.  When the
    repository listing returns, the method returns the id of the first listed
    repository whose name has the same lower-case form as the requested one,
    and [None] when no listed repository has such a name; for ASCII names
    that is the first listed repository whose name equals the requested one
    up to the case of its letters. *)
Theorem get_repository_id_ignores_case
    (rt : Runtime) (self : DORAMetricsCalculator)
    (project_name repository_name : string)
    (client : GitClient) (listed : list GitRepository) (w : world) :
  get_git_client (connection self) = Return client ->
  get_repositories client project_name = Return listed ->
  exists r,
    get_repository_id rt self project_name repository_name w = (w, Return r)
    /\ first_match (same_lower rt) listed repository_name r
    /\ (lowers_ascii rt ->
        ascii_text repository_name = true ->
        (forall r', In r' listed -> ascii_text (repo_name r') = true) ->
        first_match eq_ignore_case listed repository_name r).
Proof.
  intros Hc Hl. exists (find_repository rt listed repository_name).
  split; [|split].
  - unfold get_repository_id, bind, call, ret. now rewrite Hc, Hl.
  - apply find_repository_first_match.
  - intros Hlow Hn Ha. apply (first_match_ascii rt); auto.
    apply find_repository_first_match.
Qed.

Lemma lowers_ascii_fixture : lowers_ascii Fixture.rt.
Proof.
  split; [reflexivity|]. intros a b H. now apply lower_eq_ignore_case.
Defined.

Lemma get_repository_id_ignores_case_witness :
  exists r,
    get_repository_id Fixture.rt Fixture.calc_b "Contoso" "webapp" Fixture.w0
    = (Fixture.w0, Return r)
    /\ first_match (same_lower Fixture.rt) Fixture.repositories "webapp" r
    /\ first_match eq_ignore_case Fixture.repositories "webapp" r.
Proof.
  destruct (get_repository_id_ignores_case Fixture.rt Fixture.calc_b
              "Contoso" "webapp" Fixture.git_client Fixture.repositories
              Fixture.w0 eq_refl eq_refl) as (r & Hrun & Hsame & Hascii).
  exists r. split; [exact Hrun|]. split; [exact Hsame|].
  apply Hascii; [exact lowers_ascii_fixture|reflexivity|].
  intros r' [<-|[<-|[]]]; reflexivity.
Defined.

Example get_repository_id_webapp :
  get_repository_id Fixture.rt Fixture.calc_b "Contoso" "webapp" Fixture.w0
  = (Fixture.w0, Return (Some "6ce9")).
Proof. reflexivity. Qed.

Example get_repository_id_unknown :
  get_repository_id Fixture.rt Fixture.calc_b "Contoso" "Web-App" Fixture.w0
  = (Fixture.w0, Return None).
Proof. reflexivity. Qed.

(** ** The time window *)

(** C2, as the code behaves: a run asking for minus one day does not fail; it
    returns a window whose start lies one day after its end. *)
Lemma resolve_window_minus_one_day :
  resolve_window Fixture.rt (-1) Fixture.w0
  = (World [] 1,
     Return {| window_start := mk_datetime 2024 11 5 18 0 0 0;
               window_end := mk_datetime 2024 11 4 18 0 0 0 |}).
Proof. reflexivity. Qed.

(** C2, amended: the clock is read exactly once, and for every [days_back],
    of either sign, for which [now - days_back days] is a representable
    datetime the window is exactly [{start = now - days_back days, end =
    now}]; otherwise the only failure is the runtime's [OverflowError]. *)
Theorem resolve_window_any_days_back (rt : Runtime) (days_back : Z) (w : world) :
  let now := clock rt (clock_reads w) in
  let w' := World (stdout w) (S (clock_reads w)) in
  (Z.abs days_back <= MAX_DELTA_DAYS ->
   0 <= now - days_back * US_PER_DAY <= MAX_US ->
   resolve_window rt days_back w
   = (w', Return {| window_start := now - days_back * US_PER_DAY;
                    window_end := now |}))
  /\ (~ (Z.abs days_back <= MAX_DELTA_DAYS
         /\ 0 <= now - days_back * US_PER_DAY <= MAX_US) ->
      exists msg,
        resolve_window rt days_back w = (w', Raise (Exn OverflowError msg))).
Proof.
  intros now w'. unfold resolve_window, bind, call, ret, datetime_now,
    timedelta_days, datetime_sub. fold now. fold w'. split.
  - intros Hd [Hlo Hhi].
    destruct (Z.leb_spec (Z.abs days_back) MAX_DELTA_DAYS); [|lia].
    destruct (Z.leb_spec 0 (now - days_back * US_PER_DAY)); [|lia].
    destruct (Z.leb_spec (now - days_back * US_PER_DAY) MAX_US); [|lia].
    reflexivity.
  - intros Hn.
    destruct (Z.leb_spec (Z.abs days_back) MAX_DELTA_DAYS);
      [|destruct ((- 2 ^ 31 <=? days_back) && (days_back <? 2 ^ 31)); eauto].
    destruct (Z.leb_spec 0 (now - days_back * US_PER_DAY)); [|simpl; eauto].
    destruct (Z.leb_spec (now - days_back * US_PER_DAY) MAX_US); [|simpl; eauto].
    exfalso. apply Hn. lia.
Qed.

Lemma resolve_window_any_days_back_witness :
  resolve_window Fixture.rt 30 Fixture.w0
  = (World [] 1,
     Return {| window_start := Fixture.now - 30 * US_PER_DAY;
               window_end := Fixture.now |})
  /\ exists msg,
       resolve_window Fixture.rt 800000 Fixture.w0
       = (World [] 1, Raise (Exn OverflowError msg)).
Proof.
  split.
  - apply (proj1 (resolve_window_any_days_back Fixture.rt 30 Fixture.w0));
      [vm_compute; congruence | vm_compute; split; congruence].
  - apply (proj2 (resolve_window_any_days_back Fixture.rt 800000 Fixture.w0)).
    vm_compute. intros [_ [H _]]. apply H. reflexivity.
Defined.

(** A negative [days_back] puts the start of the window after its end. *)
Example window_of_minus_one_day :
  mk_datetime 2024 11 4 18 0 0 0 < mk_datetime 2024 11 5 18 0 0 0.
Proof. reflexivity. Qed.

Example window_of_30_days :
  Fixture.now - 30 * US_PER_DAY = Fixture.start.
Proof. reflexivity. Qed.

(** ** Arithmetic on [Qc] *)

(** Equality of computed results: the interpreter states agree and the two
    rationals have the same value. *)
Lemma returns_same_value (w w' : world) (x y : Qc) :
  w = w' -> Qeq_bool x y = true -> (w, Return x) = (w', Return y).
Proof.
  intros -> H. apply Qeq_bool_iff in H. apply Qc_is_canon in H. now subst.
Qed.

Lemma Qc_same_value (x y : Qc) : Qeq_bool x y = true -> x = y.
Proof. intros H. apply Qeq_bool_iff in H. now apply Qc_is_canon. Qed.

Lemma hours_between_total_seconds (later earlier : datetime) :
  (total_seconds (datetime_diff later earlier) / Qc_of_Z 3600)%Qc
  = hours_between later earlier.
Proof.
  unfold hours_between, total_seconds, datetime_diff.
  apply Qc_is_canon. unfold Qcdiv, Qcmult, Qcinv. simpl this.
  rewrite !Qred_correct.
  unfold Qeq, Qmult, Qinv, inject_Z. simpl. lia.
Qed.

(** ** Change failure rate *)

(** C5: the change failure rate is defined for every collection of builds the
    listing returns: 0 when there is none, and otherwise the number of builds
    whose result is "failed" over the number of builds, times 100. *)
Theorem get_change_failure_rate_total
    (self : DORAMetricsCalculator)
    (project_name repository_name branch_name : string)
    (start_date end_date : datetime)
    (client : BuildClient) (builds : list Build) (w : world) :
  get_build_client (connection self) = Return client ->
  get_builds client project_name start_date end_date "completed" None
    (branch_ref branch_name) = Return builds ->
  get_change_failure_rate self project_name repository_name branch_name
    start_date end_date w
  = (w, Return (failure_rate
                  (length (filter (fun b => build_result b = "failed") builds))
                  (length builds))).
Proof.
  intros Hc Hb. unfold get_change_failure_rate, bind, call, ret.
  rewrite Hc, Hb. unfold failure_rate.
  destruct builds as [|b builds]; [reflexivity|].
  destruct (Z.ltb_spec 0 (Z.of_nat (length (b :: builds)))) as [_|H];
    [reflexivity|]. simpl length in H. lia.
Qed.

Lemma get_change_failure_rate_total_witness :
  get_change_failure_rate Fixture.calc_a "Contoso" "WebApp" "main"
    Fixture.start Fixture.now Fixture.w0
  = (Fixture.w0, Return (failure_rate 3 10)).
Proof.
  exact (get_change_failure_rate_total Fixture.calc_a "Contoso" "WebApp" "main"
           Fixture.start Fixture.now Fixture.build_client_a
           (map Fixture.sb_build (firstn 10 Fixture.store_a)) Fixture.w0
           eq_refl eq_refl).
Defined.

Example failure_rate_3_of_10 : failure_rate 3 10 = Qc_of_Z 30.
Proof. apply Qc_same_value. reflexivity. Qed.

Example failure_rate_none : failure_rate 0 0 = 0%Qc.
Proof. reflexivity. Qed.

(** ** Deployment frequency *)

Lemma count_of_cons (d x : Z) (l : list Z) :
  count_of d (x :: l) = count_of d l + (if decide (x = d) then 1 else 0).
Proof.
  unfold count_of. rewrite filter_cons.
  destruct (decide (x = d)); simpl length; lia.
Qed.

Lemma count_of_nonneg (d : Z) (l : list Z) : 0 <= count_of d l.
Proof. unfold count_of. lia. Qed.

Lemma count_of_pos (d : Z) (l : list Z) : 0 < count_of d l <-> In d l.
Proof.
  induction l as [|x l IH]; [unfold count_of; simpl; lia|].
  rewrite count_of_cons. pose proof (count_of_nonneg d l).
  destruct (decide (x = d)) as [->|Hne]; simpl.
  - split; [auto|lia].
  - rewrite Z.add_0_r, IH. split; [auto|intros [?|?]; congruence].
Qed.

Lemma sum_Z_Permutation (l k : list Z) : l ≡ₚ k -> sum_Z l = sum_Z k.
Proof.
  induction 1 as [|x l k _ IH|x y l|l k m _ IH1 _ IH2]; unfold sum_Z in *;
    simpl; lia.
Qed.

Lemma mean_Permutation (l k : list Z) : l ≡ₚ k -> mean l = mean k.
Proof.
  intros H. unfold mean.
  now rewrite (sum_Z_Permutation _ _ H), (Permutation_length H).
Qed.

Lemma filter_map_counts (P : Z -> Prop) `{!forall c, Decision (P c)}
    (f : Z -> Z) (l : list Z) :
  filter P (map f l) = map f (filter (fun d => P (f d)) l).
Proof.
  induction l as [|x l IH]; [reflexivity|]. simpl map.
  rewrite !filter_cons. destruct (decide (P (f x))); simpl; now rewrite IH.
Qed.

(** The days with at least one deployment, taken from any duplicate-free list
    of days covering the deployments, are the distinct deployment days. *)
Lemma active_days_Permutation (days deploy_dates : list Z) :
  NoDup days ->
  (forall d, In d deploy_dates -> In d days) ->
  filter (fun d => 0 < count_of d deploy_dates) days ≡ₚ remove_dups deploy_dates.
Proof.
  intros Hnd Hcov. apply NoDup_Permutation.
  - now apply NoDup_filter.
  - apply NoDup_remove_dups.
  - intros d. rewrite list_elem_of_filter, elem_of_remove_dups, count_of_pos,
      !list_elem_of_In. split; [tauto|auto].
Qed.

Lemma per_day_counts_value_counts (days deploy_dates : list Z) :
  NoDup days ->
  (forall d, In d deploy_dates -> In d days) ->
  per_day_counts days deploy_dates ≡ₚ map snd (value_counts deploy_dates).
Proof.
  intros Hnd Hcov. unfold per_day_counts, value_counts.
  rewrite filter_map_counts, map_map. simpl.
  apply Permutation_map. now apply active_days_Permutation.
Qed.

(** Every deployment is counted on exactly one day. *)
Lemma sum_Z_indicator (x : Z) (days : list Z) :
  NoDup days -> In x days ->
  sum_Z (map (fun d => if decide (x = d) then 1 else 0) days) = 1.
Proof.
  induction 1 as [|d days Hd _ IH]; [intros []|].
  intros [->|Hx]; unfold sum_Z in *; simpl.
  - rewrite decide_True by reflexivity.
    assert (E : foldr Z.add 0 (map (fun d0 => if decide (x = d0) then 1 else 0) days) = 0).
    { clear IH. induction days as [|y days IH]; [reflexivity|]. simpl.
      rewrite decide_False.
      - rewrite IH; [reflexivity|]. intros Hc. apply Hd. now right.
      - intros ->. apply Hd. now left. }
    lia.
  - rewrite decide_False.
    + rewrite IH by assumption. reflexivity.
    + intros ->. apply Hd. now apply list_elem_of_In.
Qed.

Lemma sum_Z_counts (days deploy_dates : list Z) :
  NoDup days ->
  (forall d, In d deploy_dates -> In d days) ->
  sum_Z (map (fun d => count_of d deploy_dates) days)
  = Z.of_nat (length deploy_dates).
Proof.
  intros Hnd. induction deploy_dates as [|x l IH]; intros Hcov.
  - unfold count_of. simpl. clear. induction days; [reflexivity|].
    unfold sum_Z in *. simpl. lia.
  - assert (E : sum_Z (map (fun d => count_of d (x :: l)) days)
                = sum_Z (map (fun d => count_of d l) days)
                  + sum_Z (map (fun d => if decide (x = d) then 1 else 0) days)).
    { clear. induction days as [|d days IH]; [reflexivity|].
      unfold sum_Z in *. simpl. rewrite IH, count_of_cons. lia. }
    rewrite E, IH, sum_Z_indicator; auto with datatypes.
    simpl length. lia.
Qed.

Lemma sum_Z_value_counts (deploy_dates : list Z) :
  sum_Z (map snd (value_counts deploy_dates)) = Z.of_nat (length deploy_dates).
Proof.
  unfold value_counts. rewrite map_map. simpl.
  apply sum_Z_counts; [apply NoDup_remove_dups|].
  intros d Hd. apply list_elem_of_In, elem_of_remove_dups. now apply list_elem_of_In.
Qed.

(** C3: deployment frequency is the mean of the per-day counts over the
    calendar days that have at least one deployment: whatever duplicate-free
    list of days covering the deployments the counts are taken over, the days
    without a deployment contribute no entry.  It is therefore the number of
    builds over the number of distinct deployment days, and it is 0 when the
    listing returns no build. *)
Theorem get_deployment_frequency_active_days
    (self : DORAMetricsCalculator)
    (project_name repository_name branch_name : string)
    (start_date end_date : datetime)
    (client : BuildClient) (builds : list Build) (w : world) :
  get_build_client (connection self) = Return client ->
  get_builds client project_name start_date end_date "completed"
    (Some "succeeded") (branch_ref branch_name) = Return builds ->
  let deploy_dates := map (fun b => date (finish_time b)) builds in
  exists freq,
    get_deployment_frequency self project_name repository_name branch_name
      start_date end_date w = (w, Return freq)
    /\ (builds = [] -> freq = 0%Qc)
    /\ (builds <> [] ->
        (forall days, NoDup days ->
           (forall d, In d deploy_dates -> In d days) ->
           freq = mean (per_day_counts days deploy_dates))
        /\ freq = (Qc_of_Z (Z.of_nat (length builds))
                   / Qc_of_Z (Z.of_nat (length (remove_dups deploy_dates))))%Qc).
Proof.
  intros Hc Hb deploy_dates.
  unfold get_deployment_frequency, bind, call, ret. rewrite Hc, Hb.
  fold deploy_dates. eexists. split; [reflexivity|]. split.
  - intros ->. reflexivity.
  - intros Hne. destruct builds as [|b builds]; [congruence|].
    change (map (fun b0 => date (finish_time b0)) (b :: builds)) with deploy_dates.
    assert (Hd : exists d l, deploy_dates = d :: l) by (simpl; eauto).
    destruct Hd as (d & l & Hd). rewrite Hd at 1. split.
    + intros days Hnd Hcov. symmetry. apply mean_Permutation.
      now apply per_day_counts_value_counts.
    + unfold mean. rewrite sum_Z_value_counts. unfold value_counts.
      rewrite !length_map. unfold deploy_dates at 1. now rewrite length_map.
Qed.

Lemma get_deployment_frequency_active_days_witness :
  exists freq,
    get_deployment_frequency Fixture.calc_a "Contoso" "WebApp" "main"
      Fixture.start Fixture.now Fixture.w0 = (Fixture.w0, Return freq)
    /\ freq = (Qc_of_Z 5 / Qc_of_Z 2)%Qc.
Proof.
  destruct (get_deployment_frequency_active_days Fixture.calc_a
              "Contoso" "WebApp" "main" Fixture.start Fixture.now
              Fixture.build_client_a
              (map Fixture.sb_build (firstn 5 Fixture.store_a)) Fixture.w0
              eq_refl eq_refl) as (freq & Hrun & _ & Hmean).
  exists freq. split; [exact Hrun|].
  destruct Hmean as [_ ->]; [discriminate|]. reflexivity.
Defined.

(** Five successful builds, three on one day and two on the next: 2.5. *)
Example deployment_frequency_3_and_2 :
  get_deployment_frequency Fixture.calc_a "Contoso" "WebApp" "main"
    Fixture.start Fixture.now Fixture.w0
  = (Fixture.w0, Return (Q2Qc (5 # 2))).
Proof. vm_compute. apply returns_same_value; reflexivity. Qed.

(** Against three calendar days of which one has no deployment, the mean is
    still taken over two entries. *)
Example per_day_counts_skip_idle_day :
  per_day_counts [10; 11; 12] [10; 11; 10; 10; 11] = [3; 2].
Proof. reflexivity. Qed.

(** ** Lead time for changes *)

Lemma lead_hours_between (deploy_time commit_time : datetime) :
  lead_hours deploy_time commit_time = hours_between deploy_time commit_time.
Proof. apply hours_between_total_seconds. Qed.

Lemma restore_hours_between (closed_date created_date : datetime) :
  restore_hours closed_date created_date = hours_between closed_date created_date.
Proof. apply hours_between_total_seconds. Qed.

(** A change loop that meets no [None] timestamp appends the per-change
    values and completes. *)
Lemma for_changes_values (build : Build) (changes : list Change)
    (lead_times : list Qc) :
  (forall change, In change changes -> timestamp change <> AttrNone) ->
  for_changes build changes lead_times
  = (lead_times ++ change_values build changes, Return tt).
Proof.
  revert lead_times. induction changes as [|change rest IH]; intros lead_times H.
  - simpl. now rewrite app_nil_r.
  - simpl. destruct (timestamp change) as [| |commit_time] eqn:E.
    + apply IH. intros c Hc. apply H. now right.
    + exfalso. apply (H change); [now left|exact E].
    + rewrite IH by (intros c Hc; apply H; now right).
      rewrite lead_hours_between, <- app_assoc. reflexivity.
Qed.

(** What the change loop has appended stays appended, whether it completes
    or raises. *)
Lemma for_changes_extends (build : Build) (changes : list Change)
    (lead_times : list Qc) :
  exists added, fst (for_changes build changes lead_times) = lead_times ++ added.
Proof.
  revert lead_times. induction changes as [|change rest IH]; intros lead_times.
  - exists []. simpl. now rewrite app_nil_r.
  - simpl. destruct (timestamp change) as [| |commit_time].
    + apply IH.
    + exists []. simpl. now rewrite app_nil_r.
    + destruct (IH (lead_times ++ [lead_hours (finish_time build) commit_time]))
        as [added ->].
      eexists. now rewrite <- app_assoc.
Qed.

Lemma for_builds_no_repository_id (client : BuildClient) (project_name : string)
    (repo_id : option string) (builds : list Build) (lead_times : list Qc)
    (w : world) :
  truthy repo_id = false ->
  for_builds client project_name repo_id builds lead_times w
  = (w, Return lead_times).
Proof.
  intros H. induction builds as [|build rest IH]; simpl; [reflexivity|].
  now rewrite H.
Qed.

Lemma for_builds_flat (client : BuildClient) (project_name : string)
    (repo_id : option string) (changes_of : Z -> list Change)
    (builds : list Build) (lead_times : list Qc) (w : world) :
  truthy repo_id = true ->
  (forall build, In build builds ->
     get_build_changes client project_name (build_id build)
     = Return (changes_of (build_id build))) ->
  (forall build change, In build builds ->
     In change (changes_of (build_id build)) -> timestamp change <> AttrNone) ->
  for_builds client project_name repo_id builds lead_times w
  = (w, Return (lead_times ++ flat_lead_times changes_of builds)).
Proof.
  intros Ht. revert lead_times.
  induction builds as [|build rest IH]; intros lead_times Hf Hn; simpl.
  - unfold ret. now rewrite app_nil_r.
  - rewrite Ht. unfold try_build_changes.
    rewrite (Hf build) by now left.
    rewrite for_changes_values by (intros c Hc; apply (Hn build); [now left|exact Hc]).
    rewrite IH.
    + now rewrite <- app_assoc.
    + intros b Hb. apply Hf. now right.
    + intros b c Hb Hc. apply (Hn b); [now right|exact Hc].
Qed.

(** C4, as the code behaves: with a single successful build whose changes
    have lead times of one, three and two hours, the median of the flat
    collection is 2, yet the reducer returns 0 when the repository name
    resolves to no id. *)
Lemma lead_time_zero_without_repository :
  get_lead_time_for_changes Fixture.rt Fixture.calc_b_norepo "Contoso" "WebApp" "main"
    Fixture.start Fixture.now Fixture.w0
  = (Fixture.w0, Return 0%Qc)
  /\ median_or_0
       (flat_lead_times (fun _ => Fixture.changes_b)
          (map Fixture.sb_build Fixture.store_b))
     = Qc_of_Z 2.
Proof. split; [reflexivity|]. apply Qc_same_value. reflexivity. Qed.

(** C4, amended: when the repository name resolves to a non-empty id, every
    per-build fetch returns and no fetched change has a [None] timestamp,
    lead time is the median of the flat collection of per-change values
    across all builds, and 0 when that collection is empty; when the name
    resolves to no id or an empty one, lead time is 0 whatever the builds
    and their changes. *)
Theorem get_lead_time_for_changes_flat_median (rt : Runtime)
    (self : DORAMetricsCalculator)
    (project_name repository_name branch_name : string)
    (start_date end_date : datetime)
    (client : BuildClient) (git : GitClient) (listed : list GitRepository)
    (builds : list Build) (changes_of : Z -> list Change) (w : world) :
  get_build_client (connection self) = Return client ->
  get_git_client (connection self) = Return git ->
  get_repositories git project_name = Return listed ->
  get_builds client project_name start_date end_date "completed"
    (Some "succeeded") (branch_ref branch_name) = Return builds ->
  (truthy (find_repository rt listed repository_name) = true ->
   (forall build, In build builds ->
      get_build_changes client project_name (build_id build)
      = Return (changes_of (build_id build))) ->
   (forall build change, In build builds ->
      In change (changes_of (build_id build)) ->
      timestamp change <> AttrNone) ->
   get_lead_time_for_changes rt self project_name repository_name branch_name
     start_date end_date w
   = (w, Return (median_or_0 (flat_lead_times changes_of builds))))
  /\ (truthy (find_repository rt listed repository_name) = false ->
      get_lead_time_for_changes rt self project_name repository_name branch_name
        start_date end_date w
      = (w, Return 0%Qc)).
Proof.
  intros Hc Hg Hl Hb.
  unfold get_lead_time_for_changes, get_repository_id, bind, call, ret.
  rewrite Hc, Hg, Hl, Hb. split.
  - intros Ht Hf Hn. now rewrite (for_builds_flat _ _ _ changes_of).
  - intros Ht. now rewrite for_builds_no_repository_id.
Qed.

Lemma get_lead_time_for_changes_flat_median_witness :
  get_lead_time_for_changes Fixture.rt Fixture.calc_b "Contoso" "webapp" "main"
    Fixture.start Fixture.now Fixture.w0
  = (Fixture.w0,
     Return (median_or_0
               (flat_lead_times
                  (fun id => if id =? 101 then Fixture.changes_b else [])
                  (map Fixture.sb_build Fixture.store_b)))).
Proof.
  apply (proj1 (get_lead_time_for_changes_flat_median Fixture.rt Fixture.calc_b
                  "Contoso" "webapp" "main" Fixture.start Fixture.now
                  Fixture.build_client_b Fixture.git_client
                  Fixture.repositories (map Fixture.sb_build Fixture.store_b)
                  (fun id => if id =? 101 then Fixture.changes_b else [])
                  Fixture.w0 eq_refl eq_refl eq_refl eq_refl)).
  - reflexivity.
  - intros build [<-|[]]. reflexivity.
  - intros build change [<-|[]] Hc. simpl in Hc.
    destruct Hc as [<-|[<-|[<-|[<-|[]]]]]; discriminate.
Defined.

(** A single build with changes at lead times of one, three and two hours:
    2.0. *)
Example lead_time_1_2_3 :
  get_lead_time_for_changes Fixture.rt Fixture.calc_b "Contoso" "webapp" "main"
    Fixture.start Fixture.now Fixture.w0
  = (Fixture.w0, Return (Qc_of_Z 2)).
Proof. vm_compute. apply returns_same_value; reflexivity. Qed.

(** The median is taken over the flat collection, not over per-build
    averages: builds with lead times [{1, 2, 9}] and [{4}] give 3, where
    averaging per build first would give 4. *)
Example median_is_flat :
  median (map Qc_of_Z [1; 2; 9; 4]) = Qc_of_Z 3.
Proof. apply Qc_same_value. reflexivity. Qed.

(** ** The repository id *)

(** The build loop reads the repository id only through its truth value. *)
Lemma for_builds_truthy (client : BuildClient) (project_name : string)
    (id1 id2 : option string) (builds : list Build) (lead_times : list Qc)
    (w : world) :
  truthy id1 = truthy id2 ->
  for_builds client project_name id1 builds lead_times w
  = for_builds client project_name id2 builds lead_times w.
Proof.
  intros H. revert lead_times w.
  induction builds as [|build rest IH]; intros lead_times w; simpl;
    [reflexivity|].
  rewrite <- H. destruct (truthy id1); [|apply IH].
  destruct (try_build_changes client project_name build lead_times)
    as [lead_times' [[]|e]]; [apply IH|].
  unfold bind, print. apply IH.
Qed.

(** C9, as the code behaves: two calculators with the same build service and
    the same tracker, differing only in whether the repository name resolves,
    report different lead times. *)
Lemma lead_time_depends_on_repository_id :
  get_build_client (connection Fixture.calc_b)
  = get_build_client (connection Fixture.calc_b_norepo)
  /\ get_work_item_tracking_client (connection Fixture.calc_b)
     = get_work_item_tracking_client (connection Fixture.calc_b_norepo)
  /\ get_repository_id Fixture.rt Fixture.calc_b "Contoso" "WebApp" Fixture.w0
     = (Fixture.w0, Return (Some "6ce9"))
  /\ get_repository_id Fixture.rt Fixture.calc_b_norepo "Contoso" "WebApp" Fixture.w0
     = (Fixture.w0, Return None)
  /\ get_lead_time_for_changes Fixture.rt Fixture.calc_b "Contoso" "WebApp" "main"
       Fixture.start Fixture.now Fixture.w0
     = (Fixture.w0, Return (Qc_of_Z 2))
  /\ get_lead_time_for_changes Fixture.rt Fixture.calc_b_norepo "Contoso" "WebApp" "main"
       Fixture.start Fixture.now Fixture.w0
     = (Fixture.w0, Return 0%Qc).
Proof.
  repeat split; try reflexivity.
  vm_compute. apply returns_same_value; reflexivity.
Qed.

(** C9, amended: for two calculators with the same build service and the same
    tracker whose repository listings both return, deployment frequency,
    change failure rate and time to restore are equal whatever the
    repository name resolves to; lead time is equal when the two resolved
    ids are both non-empty or both absent or empty, and it is 0, once the
    build listing has returned, whenever the name resolves to [None] or to
    an empty id. *)
Theorem reducers_and_repository_id
    (rt : Runtime) (self1 self2 : DORAMetricsCalculator)
    (project_name repository_name branch_name : string)
    (start_date end_date : datetime)
    (git1 git2 : GitClient) (listed1 listed2 : list GitRepository)
    (w : world) :
  get_build_client (connection self1) = get_build_client (connection self2) ->
  get_work_item_tracking_client (connection self1)
  = get_work_item_tracking_client (connection self2) ->
  get_git_client (connection self1) = Return git1 ->
  get_git_client (connection self2) = Return git2 ->
  get_repositories git1 project_name = Return listed1 ->
  get_repositories git2 project_name = Return listed2 ->
  get_deployment_frequency self1 project_name repository_name branch_name
    start_date end_date w
  = get_deployment_frequency self2 project_name repository_name branch_name
      start_date end_date w
  /\ get_change_failure_rate self1 project_name repository_name branch_name
       start_date end_date w
     = get_change_failure_rate self2 project_name repository_name branch_name
         start_date end_date w
  /\ get_time_to_restore rt self1 project_name repository_name branch_name
       start_date end_date w
     = get_time_to_restore rt self2 project_name repository_name branch_name
         start_date end_date w
  /\ (truthy (find_repository rt listed1 repository_name)
      = truthy (find_repository rt listed2 repository_name) ->
      get_lead_time_for_changes rt self1 project_name repository_name
        branch_name start_date end_date w
      = get_lead_time_for_changes rt self2 project_name repository_name
          branch_name start_date end_date w)
  /\ (truthy (find_repository rt listed2 repository_name) = false ->
      forall client builds,
        get_build_client (connection self2) = Return client ->
        get_builds client project_name start_date end_date "completed"
          (Some "succeeded") (branch_ref branch_name) = Return builds ->
        get_lead_time_for_changes rt self2 project_name repository_name
          branch_name start_date end_date w
        = (w, Return 0%Qc)).
Proof.
  intros Hb Hw Hg1 Hg2 Hl1 Hl2.
  split; [|split; [|split; [|split]]].
  - unfold get_deployment_frequency, bind, call. now rewrite Hb.
  - unfold get_change_failure_rate, bind, call. now rewrite Hb.
  - unfold get_time_to_restore, try_except, time_to_restore_body,
      get_repository_id, bind, call, ret.
    now rewrite Hw, Hg1, Hg2, Hl1, Hl2.
  - intros Ht.
    unfold get_lead_time_for_changes, get_repository_id, bind, call, ret.
    rewrite Hb, Hg1, Hg2, Hl1, Hl2.
    destruct (get_build_client (connection self2)) as [client|e]; [|reflexivity].
    destruct (get_builds client project_name start_date end_date "completed"
                (Some "succeeded") (branch_ref branch_name)) as [builds|e];
      [|reflexivity].
    now rewrite (for_builds_truthy _ _ _ _ _ _ _ Ht).
  - intros Ht client builds Hc Hbs.
    unfold get_lead_time_for_changes, get_repository_id, bind, call, ret.
    rewrite Hc, Hg2, Hl2, Hbs. now rewrite for_builds_no_repository_id.
Qed.

Lemma reducers_and_repository_id_witness :
  get_repository_id Fixture.rt Fixture.calc_b "Contoso" "WebApp" Fixture.w0
  = (Fixture.w0, Return (Some "6ce9"))
  /\ get_repository_id Fixture.rt Fixture.calc_b_norepo "Contoso" "WebApp"
       Fixture.w0
     = (Fixture.w0, Return None)
  /\ get_deployment_frequency Fixture.calc_b "Contoso" "WebApp" "main"
       Fixture.start Fixture.now Fixture.w0
     = get_deployment_frequency Fixture.calc_b_norepo "Contoso" "WebApp"
         "main" Fixture.start Fixture.now Fixture.w0
  /\ get_change_failure_rate Fixture.calc_b "Contoso" "WebApp" "main"
       Fixture.start Fixture.now Fixture.w0
     = get_change_failure_rate Fixture.calc_b_norepo "Contoso" "WebApp"
         "main" Fixture.start Fixture.now Fixture.w0
  /\ get_time_to_restore Fixture.rt Fixture.calc_b "Contoso" "WebApp" "main"
       Fixture.start Fixture.now Fixture.w0
     = get_time_to_restore Fixture.rt Fixture.calc_b_norepo "Contoso" "WebApp"
         "main" Fixture.start Fixture.now Fixture.w0
  /\ get_lead_time_for_changes Fixture.rt Fixture.calc_b_norepo "Contoso"
       "WebApp" "main" Fixture.start Fixture.now Fixture.w0
     = (Fixture.w0, Return 0%Qc)
  /\ get_lead_time_for_changes Fixture.rt Fixture.calc_b "Contoso" "WebApp"
       "main" Fixture.start Fixture.now Fixture.w0
     = get_lead_time_for_changes Fixture.rt Fixture.calc_b_renamed "Contoso"
         "WebApp" "main" Fixture.start Fixture.now Fixture.w0.
Proof.
  destruct (reducers_and_repository_id Fixture.rt Fixture.calc_b
              Fixture.calc_b_norepo "Contoso" "WebApp" "main" Fixture.start
              Fixture.now Fixture.git_client Fixture.git_client_empty
              Fixture.repositories [] Fixture.w0
              eq_refl eq_refl eq_refl eq_refl eq_refl eq_refl)
    as (Hd & Hc & Ht & _ & Hzero).
  destruct (reducers_and_repository_id Fixture.rt Fixture.calc_b
              Fixture.calc_b_renamed "Contoso" "WebApp" "main" Fixture.start
              Fixture.now Fixture.git_client Fixture.git_client_renamed
              Fixture.repositories
              [ {| repo_name := "webapp"; repo_id := "a41c" |} ] Fixture.w0
              eq_refl eq_refl eq_refl eq_refl eq_refl eq_refl)
    as (_ & _ & _ & Hl & _).
  refine (conj eq_refl (conj eq_refl (conj Hd (conj Hc (conj Ht
            (conj _ (Hl eq_refl))))))).
  exact (Hzero eq_refl Fixture.build_client_b
           (map Fixture.sb_build Fixture.store_b) eq_refl eq_refl).
Defined.

(** ** Strings *)

Lemma append_assoc (a b c : string) : (a +:+ b) +:+ c = a +:+ (b +:+ c).
Proof.
  induction a as [|x a IH]; [reflexivity|].
  change (String x ((a +:+ b) +:+ c) = String x (a +:+ (b +:+ c))).
  now rewrite IH.
Qed.

(** ** Time to restore *)

(** The incident loop writes nothing: its state is the one it started in. *)
Lemma for_work_items_world (rt : Runtime) (client : WorkItemTrackingClient)
    (refs : list WorkItemReference) (times : list Qc) (w : world) :
  fst (for_work_items rt client refs times w) = w.
Proof.
  revert times. induction refs as [|ref rest IH]; intros times; simpl;
    [reflexivity|].
  unfold bind, call.
  destruct (get_work_item client (ref_id ref)) as [item|e]; [|reflexivity].
  destruct (fields item !! "System.CreatedDate") as [created|]; [|apply IH].
  destruct (fields item !! "System.ChangedDate") as [changed|]; [|apply IH].
  destruct (strptime_iso rt created) as [t1|e]; [|reflexivity].
  destruct (strptime_iso rt changed) as [t2|e]; [|reflexivity].
  apply IH.
Qed.

(** When every incident can be fetched and every timestamp parses, the loop
    collects the restoration time of every incident exposing both
    timestamps. *)
Lemma for_work_items_all (rt : Runtime) (client : WorkItemTrackingClient)
    (item_of : Z -> WorkItem) (refs : list WorkItemReference)
    (times : list Qc) (w : world) :
  (forall ref, In ref refs ->
     get_work_item client (ref_id ref) = Return (item_of (ref_id ref))) ->
  (forall ref s, In ref refs ->
     fields (item_of (ref_id ref)) !! "System.CreatedDate" = Some s
     \/ fields (item_of (ref_id ref)) !! "System.ChangedDate" = Some s ->
     exists t, strptime_iso rt s = Return t) ->
  for_work_items rt client refs times w
  = (w, Return (times ++ restoration_values rt (fun _ => true)
                          (map (fun ref => item_of (ref_id ref)) refs))).
Proof.
  revert times. induction refs as [|ref rest IH]; intros times Hf Hp; simpl.
  - unfold ret. now rewrite app_nil_r.
  - unfold bind, call. rewrite (Hf ref) by now left.
    assert (Hf' : forall r, In r rest ->
              get_work_item client (ref_id r) = Return (item_of (ref_id r)))
      by (intros r Hr; apply Hf; now right).
    assert (Hp' : forall r s, In r rest ->
              fields (item_of (ref_id r)) !! "System.CreatedDate" = Some s
              \/ fields (item_of (ref_id r)) !! "System.ChangedDate" = Some s ->
              exists t, strptime_iso rt s = Return t)
      by (intros r s Hr; apply Hp; now right).
    destruct (fields (item_of (ref_id ref)) !! "System.CreatedDate")
      as [created|] eqn:Ec; [|now apply IH].
    destruct (fields (item_of (ref_id ref)) !! "System.ChangedDate")
      as [changed|] eqn:Eh; [|now apply IH].
    destruct (Hp ref created) as [t1 ->]; [now left|now left|].
    destruct (Hp ref changed) as [t2 ->]; [now left|now right|].
    rewrite IH by assumption.
    rewrite restore_hours_between, <- app_assoc. reflexivity.
Qed.

(** One incident that cannot be fetched makes the whole loop raise. *)
Lemma for_work_items_raises (rt : Runtime) (client : WorkItemTrackingClient)
    (refs : list WorkItemReference) (times : list Qc) (w : world)
    (ref : WorkItemReference) (e : exn) :
  In ref refs ->
  get_work_item client (ref_id ref) = Raise e ->
  exists e', for_work_items rt client refs times w = (w, Raise e').
Proof.
  intros Hin Hr. revert times.
  induction refs as [|r rest IH]; intros times; [destruct Hin|].
  simpl. unfold bind, call.
  destruct (get_work_item client (ref_id r)) as [item|e0] eqn:E; [|eauto].
  assert (Hrest : In ref rest).
  { destruct Hin as [->|H]; [congruence|exact H]. }
  destruct (fields item !! "System.CreatedDate") as [created|]; [|now apply IH].
  destruct (fields item !! "System.ChangedDate") as [changed|]; [|now apply IH].
  destruct (strptime_iso rt created) as [t1|e1]; [|eauto].
  destruct (strptime_iso rt changed) as [t2|e2]; [|eauto].
  now apply IH.
Qed.

(** The query the reducer sends for the 30-day window ending on 2024-11-04
    18:00: both bounds are cut to the day. *)
Example query_of_30_day_window :
  strftime_ymd Fixture.rt Fixture.start = "2024-10-05"
  /\ strftime_ymd Fixture.rt Fixture.now = "2024-11-04"
  /\ wiql_query "Contoso" (strftime_ymd Fixture.rt Fixture.start)
       (strftime_ymd Fixture.rt Fixture.now) "main"
     = Fixture.october_query.
Proof. repeat split; reflexivity. Qed.

(** C8, as the code behaves: for the window from 2024-10-05 18:00 to
    2024-11-04 18:00 the query asks for changed dates from 2024-10-05 on; a
    bug closed on 5 October at 09:00, before the window starts, is returned
    and enters the median (5 hours), where restricting to the window would
    leave no incident (0). *)
Lemma time_to_restore_counts_incident_before_start :
  get_time_to_restore Fixture.rt Fixture.calc_a "Contoso" "WebApp" "main"
    Fixture.start Fixture.now Fixture.w0
  = (Fixture.w0, Return (Qc_of_Z 5))
  /\ fields Fixture.bug7 !! "System.ChangedDate"
     = Some "2024-10-05T09:00:00.000000Z"
  /\ strptime_iso Fixture.rt "2024-10-05T09:00:00.000000Z"
     = Return (mk_datetime 2024 10 5 9 0 0 0)
  /\ in_window Fixture.start Fixture.now (mk_datetime 2024 10 5 9 0 0 0) = false
  /\ median_or_0
       (restoration_values Fixture.rt (in_window Fixture.start Fixture.now)
          [Fixture.bug7])
     = 0%Qc.
Proof.
  split; [vm_compute; apply returns_same_value; reflexivity|].
  repeat split; reflexivity.
Qed.

(** C8, amended: the reducer asks the tracker for the incidents whose changed
    date lies between the calendar day of the window's start and the calendar
    day of its end, both included, and applies no window test of its own:
    every incident the query returns that exposes both timestamps enters the
    median, whatever its changed time. *)
Theorem get_time_to_restore_all_returned
    (rt : Runtime) (self : DORAMetricsCalculator)
    (project_name repository_name branch_name : string)
    (start_date end_date : datetime)
    (client : WorkItemTrackingClient) (git : GitClient)
    (listed : list GitRepository) (refs : list WorkItemReference)
    (item_of : Z -> WorkItem) (w : world) :
  get_work_item_tracking_client (connection self) = Return client ->
  get_git_client (connection self) = Return git ->
  import_Wiql rt = Return tt ->
  get_repositories git project_name = Return listed ->
  query_by_wiql client
    (wiql_query project_name (strftime_ymd rt start_date)
       (strftime_ymd rt end_date) branch_name) = Return refs ->
  (forall ref, In ref refs ->
     get_work_item client (ref_id ref) = Return (item_of (ref_id ref))) ->
  (forall ref s, In ref refs ->
     fields (item_of (ref_id ref)) !! "System.CreatedDate" = Some s
     \/ fields (item_of (ref_id ref)) !! "System.ChangedDate" = Some s ->
     exists t, strptime_iso rt s = Return t) ->
  get_time_to_restore rt self project_name repository_name branch_name
    start_date end_date w
  = (w, Return (median_or_0
                  (restoration_values rt (fun _ => true)
                     (map (fun ref => item_of (ref_id ref)) refs))))
  /\ exists before after,
       wiql_query project_name (strftime_ymd rt start_date)
         (strftime_ymd rt end_date) branch_name
       = before
         +:+ wiql_line ("AND [System.ChangedDate] >= '"
                        +:+ strftime_ymd rt start_date +:+ "'")
         +:+ wiql_line ("AND [System.ChangedDate] <= '"
                        +:+ strftime_ymd rt end_date +:+ "'")
         +:+ after.
Proof.
  intros Hc Hg Hi Hl Hq Hf Hp. split.
  - unfold get_time_to_restore, try_except, time_to_restore_body,
      get_repository_id, bind, call, ret.
    rewrite Hc, Hg, Hi, Hl, Hq.
    destruct refs as [|ref rest]; [reflexivity|].
    now rewrite (for_work_items_all rt client item_of).
  - unfold wiql_query.
    exists (nl
            +:+ wiql_line "SELECT [System.Id]"
            +:+ wiql_line "FROM WorkItems"
            +:+ wiql_line ("WHERE [System.TeamProject] = '" +:+ project_name
                           +:+ "'")
            +:+ wiql_line "AND [System.WorkItemType] = 'Bug'"
            +:+ wiql_line "AND [System.State] = 'Closed'").
    exists (wiql_line ("AND [System.Tags] CONTAINS '" +:+ branch_name +:+ "'")
            +:+ wiql_line "ORDER BY [System.ChangedDate] DESC"
            +:+ "            ").
    now rewrite !append_assoc.
Qed.

Lemma get_time_to_restore_all_returned_witness :
  get_time_to_restore Fixture.rt Fixture.calc_a "Contoso" "WebApp" "main"
    Fixture.start Fixture.now Fixture.w0
  = (Fixture.w0,
     Return (median_or_0
               (restoration_values Fixture.rt (fun _ => true) [Fixture.bug7]))).
Proof.
  apply (proj1 (get_time_to_restore_all_returned Fixture.rt Fixture.calc_a
                  "Contoso" "WebApp" "main" Fixture.start Fixture.now
                  Fixture.work_client_7 Fixture.git_client
                  Fixture.repositories [ {| ref_id := 7 |} ]
                  (fun _ => Fixture.bug7) Fixture.w0
                  eq_refl eq_refl eq_refl eq_refl eq_refl
                  ltac:(intros ref [<-|[]]; reflexivity)
                  ltac:(intros ref s _ [H|H]; vm_compute in H;
                        injection H as <-; eexists; reflexivity))).
Defined.

(** An incident opened at T and closed at T + 5h, the only match: 5.0. *)
Example time_to_restore_5_hours :
  median_or_0 (restoration_values Fixture.rt (fun _ => true) [Fixture.bug8])
  = Qc_of_Z 5.
Proof. apply Qc_same_value. reflexivity. Qed.

(** The [try] of [get_time_to_restore] turns every exception of its body
    into a diagnostic and the value 0. *)
Lemma get_time_to_restore_total
    (rt : Runtime) (self : DORAMetricsCalculator)
    (project_name repository_name branch_name : string)
    (start_date end_date : datetime) (w : world) :
  exists w' v,
    get_time_to_restore rt self project_name repository_name branch_name
      start_date end_date w = (w', Return v)
    /\ forall w1 e,
         time_to_restore_body rt self project_name repository_name
           branch_name start_date end_date w = (w1, Raise e) ->
         v = 0%Qc /\ w' = diagnosed w1 e.
Proof.
  unfold get_time_to_restore, try_except.
  destruct (time_to_restore_body rt self project_name repository_name
              branch_name start_date end_date w) as [w1 [v|e]].
  - exists w1, v. split; [reflexivity|]. intros w2 e H. discriminate.
  - eexists _, _. split; [reflexivity|].
    intros w2 e' H. injection H as <- <-. split; reflexivity.
Qed.

(** C6: [get_time_to_restore] never raises, whatever the collaborators do;
    whenever anything inside it raises (acquiring a client, the import, the
    repository lookup, the query, fetching an incident, parsing a timestamp)
    it prints one diagnostic naming the error and returns 0. *)
Theorem get_time_to_restore_never_raises
    (rt : Runtime) (self : DORAMetricsCalculator)
    (project_name repository_name branch_name : string)
    (start_date end_date : datetime) (w : world) :
  exists w' v,
    get_time_to_restore rt self project_name repository_name branch_name
      start_date end_date w = (w', Return v)
    /\ forall w1 e,
         time_to_restore_body rt self project_name repository_name
           branch_name start_date end_date w = (w1, Raise e) ->
         v = 0%Qc /\ w' = diagnosed w1 e.
Proof. apply get_time_to_restore_total. Qed.

Lemma get_time_to_restore_never_raises_witness :
  get_time_to_restore Fixture.rt Fixture.calc_c "Contoso" "WebApp" "main"
    Fixture.start Fixture.now Fixture.w0
  = (World ["Error in get_time_to_restore: connection refused"] 0,
     Return 0%Qc).
Proof.
  destruct (get_time_to_restore_never_raises Fixture.rt Fixture.calc_c
              "Contoso" "WebApp" "main" Fixture.start Fixture.now Fixture.w0)
    as (w' & v & Hrun & Hfail).
  destruct (Hfail Fixture.w0 Fixture.unavailable eq_refl) as [-> ->].
  exact Hrun.
Defined.

(** The failures named in the specification, each making the body raise. *)

Lemma body_raises_on_query_error
    (rt : Runtime) (self : DORAMetricsCalculator)
    (project_name repository_name branch_name : string)
    (start_date end_date : datetime)
    (client : WorkItemTrackingClient) (git : GitClient)
    (listed : list GitRepository) (e : exn) (w : world) :
  get_work_item_tracking_client (connection self) = Return client ->
  get_git_client (connection self) = Return git ->
  import_Wiql rt = Return tt ->
  get_repositories git project_name = Return listed ->
  query_by_wiql client
    (wiql_query project_name (strftime_ymd rt start_date)
       (strftime_ymd rt end_date) branch_name) = Raise e ->
  time_to_restore_body rt self project_name repository_name branch_name
    start_date end_date w = (w, Raise e).
Proof.
  intros Hc Hg Hi Hl Hq.
  unfold time_to_restore_body, get_repository_id, bind, call, ret.
  now rewrite Hc, Hg, Hi, Hl, Hq.
Qed.

Lemma body_raises_on_unavailable_tracker
    (rt : Runtime) (self : DORAMetricsCalculator)
    (project_name repository_name branch_name : string)
    (start_date end_date : datetime) (e : exn) (w : world) :
  get_work_item_tracking_client (connection self) = Raise e ->
  time_to_restore_body rt self project_name repository_name branch_name
    start_date end_date w = (w, Raise e).
Proof.
  intros Hc. unfold time_to_restore_body, bind, call. now rewrite Hc.
Qed.

Lemma body_raises_on_item_failure
    (rt : Runtime) (self : DORAMetricsCalculator)
    (project_name repository_name branch_name : string)
    (start_date end_date : datetime)
    (client : WorkItemTrackingClient) (git : GitClient)
    (listed : list GitRepository) (refs : list WorkItemReference)
    (ref : WorkItemReference) (e : exn) (w : world) :
  get_work_item_tracking_client (connection self) = Return client ->
  get_git_client (connection self) = Return git ->
  import_Wiql rt = Return tt ->
  get_repositories git project_name = Return listed ->
  query_by_wiql client
    (wiql_query project_name (strftime_ymd rt start_date)
       (strftime_ymd rt end_date) branch_name) = Return refs ->
  In ref refs ->
  get_work_item client (ref_id ref) = Raise e ->
  exists e',
    time_to_restore_body rt self project_name repository_name branch_name
      start_date end_date w = (w, Raise e').
Proof.
  intros Hc Hg Hi Hl Hq Hin Hr.
  unfold time_to_restore_body, get_repository_id, bind, call, ret.
  rewrite Hc, Hg, Hi, Hl, Hq.
  destruct refs as [|r rest]; [destruct Hin|].
  destruct (for_work_items_raises rt client (r :: rest) [] w ref e Hin Hr)
    as [e' ->].
  eauto.
Qed.

Lemma body_raises_on_malformed_timestamp
    (rt : Runtime) (self : DORAMetricsCalculator)
    (project_name repository_name branch_name : string)
    (start_date end_date : datetime)
    (client : WorkItemTrackingClient) (git : GitClient)
    (listed : list GitRepository) (ref : WorkItemReference)
    (rest : list WorkItemReference) (item : WorkItem)
    (created changed : string) (e : exn) (w : world) :
  get_work_item_tracking_client (connection self) = Return client ->
  get_git_client (connection self) = Return git ->
  import_Wiql rt = Return tt ->
  get_repositories git project_name = Return listed ->
  query_by_wiql client
    (wiql_query project_name (strftime_ymd rt start_date)
       (strftime_ymd rt end_date) branch_name) = Return (ref :: rest) ->
  get_work_item client (ref_id ref) = Return item ->
  fields item !! "System.CreatedDate" = Some created ->
  fields item !! "System.ChangedDate" = Some changed ->
  strptime_iso rt created = Raise e ->
  time_to_restore_body rt self project_name repository_name branch_name
    start_date end_date w = (w, Raise e).
Proof.
  intros Hc Hg Hi Hl Hq Hw Hf1 Hf2 Hp.
  unfold time_to_restore_body, get_repository_id, bind, call, ret.
  rewrite Hc, Hg, Hi, Hl, Hq. simpl. unfold bind, call.
  now rewrite Hw, Hf1, Hf2, Hp.
Qed.

Lemma for_work_items_fails (rt : Runtime) (client : WorkItemTrackingClient)
    (refs : list WorkItemReference) (times : list Qc) (w : world)
    (ref : WorkItemReference) :
  In ref refs ->
  incident_fails rt client ref ->
  exists e', for_work_items rt client refs times w = (w, Raise e').
Proof.
  intros Hin Hf. revert times.
  induction refs as [|r rest IH]; intros times; [destruct Hin|].
  simpl. unfold bind, call.
  destruct (get_work_item client (ref_id r)) as [item|e0] eqn:E; [|eauto].
  destruct (fields item !! "System.CreatedDate") as [created|] eqn:Ec.
  - destruct (fields item !! "System.ChangedDate") as [changed|] eqn:Eh.
    + destruct (strptime_iso rt created) as [t1|e1] eqn:E1; [|eauto].
      destruct (strptime_iso rt changed) as [t2|e2] eqn:E2; [|eauto].
      destruct Hin as [->|Hin]; [|now apply IH].
      exfalso.
      destruct Hf as [[e He]|(item' & c' & h' & e & Hi & Hc' & Hh' & Hp)];
        [congruence|].
      rewrite E in Hi. injection Hi as <-.
      rewrite Ec in Hc'. injection Hc' as <-.
      rewrite Eh in Hh'. injection Hh' as <-.
      destruct Hp; congruence.
    + destruct Hin as [->|Hin]; [|now apply IH].
      exfalso.
      destruct Hf as [[e He]|(item' & c' & h' & e & Hi & Hc' & Hh' & Hp)];
        [congruence|].
      rewrite E in Hi. injection Hi as <-. congruence.
  - destruct Hin as [->|Hin]; [|now apply IH].
    exfalso.
    destruct Hf as [[e He]|(item' & c' & h' & e & Hi & Hc' & Hh' & Hp)];
      [congruence|].
    rewrite E in Hi. injection Hi as <-. congruence.
Qed.

Lemma body_raises_on_incident_failure
    (rt : Runtime) (self : DORAMetricsCalculator)
    (project_name repository_name branch_name : string)
    (start_date end_date : datetime)
    (client : WorkItemTrackingClient) (git : GitClient)
    (listed : list GitRepository) (refs : list WorkItemReference)
    (ref : WorkItemReference) (w : world) :
  get_work_item_tracking_client (connection self) = Return client ->
  get_git_client (connection self) = Return git ->
  import_Wiql rt = Return tt ->
  get_repositories git project_name = Return listed ->
  query_by_wiql client
    (wiql_query project_name (strftime_ymd rt start_date)
       (strftime_ymd rt end_date) branch_name) = Return refs ->
  In ref refs ->
  incident_fails rt client ref ->
  exists e',
    time_to_restore_body rt self project_name repository_name branch_name
      start_date end_date w = (w, Raise e').
Proof.
  intros Hc Hg Hi Hl Hq Hin Hf.
  unfold time_to_restore_body, get_repository_id, bind, call, ret.
  rewrite Hc, Hg, Hi, Hl, Hq.
  destruct refs as [|r rest]; [destruct Hin|].
  destruct (for_work_items_fails rt client (r :: rest) [] w ref Hin Hf)
    as [e' ->].
  eauto.
Qed.

(** ** Failures of the collaborators *)

(** C7, as the code behaves: the tracker returns bugs 9 and 8; bug 9 cannot
    be fetched.  The failure is not confined to bug 9: the reducer returns 0,
    although bug 8 alone has a restoration time of 5 hours. *)
Lemma time_to_restore_item_failure_zeroes_all :
  query_by_wiql Fixture.work_client_98 Fixture.october_query
  = Return [ {| ref_id := 9 |}; {| ref_id := 8 |} ]
  /\ get_work_item Fixture.work_client_98 9 = Raise Fixture.unavailable
  /\ get_work_item Fixture.work_client_98 8 = Return Fixture.bug8
  /\ median_or_0
       (restoration_values Fixture.rt (fun _ => true) [Fixture.bug8])
     = Qc_of_Z 5
  /\ get_time_to_restore Fixture.rt Fixture.calc_c "Contoso" "WebApp" "main"
       Fixture.start Fixture.now Fixture.w0
     = (World ["Error in get_time_to_restore: connection refused"] 0,
        Return 0%Qc).
Proof.
  repeat split; try reflexivity. apply Qc_same_value. reflexivity.
Qed.

(** C7, amended.  In the lead-time reducer a failure while processing one
    build is caught: a diagnostic is printed, what that build had already
    appended stays, and the loop goes on with the next build.  In the
    time-to-restore reducer a failure while fetching or parsing one incident
    (the fetch raises, or a date of the fetched incident does not parse) is
    caught at the reducer boundary only: the reducer prints a diagnostic and
    returns 0.  A failure of the initial listing propagates out of the deployment
    frequency, lead time and change failure rate reducers, and is swallowed,
    with a diagnostic and the value 0, by time to restore. *)
Theorem upstream_failure_policy :
  (forall (client : BuildClient) (project_name : string)
          (repo_id : option string) (build : Build) (rest : list Build)
          (lead_times lead_times' : list Qc) (e : exn) (w : world),
     truthy repo_id = true ->
     try_build_changes client project_name build lead_times
     = (lead_times', Raise e) ->
     for_builds client project_name repo_id (build :: rest) lead_times w
     = for_builds client project_name repo_id rest lead_times'
         (build_diagnosed w build e)
     /\ exists added, lead_times' = lead_times ++ added)
  /\ (forall (rt : Runtime) (self : DORAMetricsCalculator)
             (project_name repository_name branch_name : string)
             (start_date end_date : datetime)
             (client : WorkItemTrackingClient) (git : GitClient)
             (listed : list GitRepository) (refs : list WorkItemReference)
             (ref : WorkItemReference) (w : world),
        get_work_item_tracking_client (connection self) = Return client ->
        get_git_client (connection self) = Return git ->
        import_Wiql rt = Return tt ->
        get_repositories git project_name = Return listed ->
        query_by_wiql client
          (wiql_query project_name (strftime_ymd rt start_date)
             (strftime_ymd rt end_date) branch_name) = Return refs ->
        In ref refs ->
        incident_fails rt client ref ->
        exists e',
          get_time_to_restore rt self project_name repository_name
            branch_name start_date end_date w
          = (diagnosed w e', Return 0%Qc))
  /\ (forall (rt : Runtime) (self : DORAMetricsCalculator)
             (project_name repository_name branch_name : string)
             (start_date end_date : datetime)
             (client : BuildClient) (e : exn) (w : world),
        get_build_client (connection self) = Return client ->
        (get_builds client project_name start_date end_date "completed"
           (Some "succeeded") (branch_ref branch_name) = Raise e ->
         get_deployment_frequency self project_name repository_name
           branch_name start_date end_date w = (w, Raise e)
         /\ forall git listed,
              get_git_client (connection self) = Return git ->
              get_repositories git project_name = Return listed ->
              get_lead_time_for_changes rt self project_name repository_name
                branch_name start_date end_date w = (w, Raise e))
        /\ (get_builds client project_name start_date end_date "completed"
              None (branch_ref branch_name) = Raise e ->
            get_change_failure_rate self project_name repository_name
              branch_name start_date end_date w = (w, Raise e)))
  /\ (forall (rt : Runtime) (self : DORAMetricsCalculator)
             (project_name repository_name branch_name : string)
             (start_date end_date : datetime)
             (client : WorkItemTrackingClient) (git : GitClient)
             (listed : list GitRepository) (e : exn) (w : world),
        get_work_item_tracking_client (connection self) = Return client ->
        get_git_client (connection self) = Return git ->
        import_Wiql rt = Return tt ->
        get_repositories git project_name = Return listed ->
        query_by_wiql client
          (wiql_query project_name (strftime_ymd rt start_date)
             (strftime_ymd rt end_date) branch_name) = Raise e ->
        get_time_to_restore rt self project_name repository_name branch_name
          start_date end_date w
        = (diagnosed w e, Return 0%Qc)).
Proof.
  repeat apply conj.
  - intros client project_name repo_id build rest lead_times lead_times' e w
      Ht Hr. split.
    + simpl. rewrite Ht, Hr. reflexivity.
    + unfold try_build_changes in Hr.
      destruct (get_build_changes client project_name (build_id build))
        as [changes|e0].
      * destruct (for_changes_extends build changes lead_times) as [added Ha].
        rewrite Hr in Ha. simpl in Ha. eauto.
      * injection Hr as <- _. exists []. now rewrite app_nil_r.
  - intros rt self project_name repository_name branch_name start_date
      end_date client git listed refs ref w Hc Hg Hi Hl Hq Hin Hr.
    destruct (body_raises_on_incident_failure rt self project_name
                repository_name branch_name start_date end_date client git
                listed refs ref w Hc Hg Hi Hl Hq Hin Hr) as [e' Hb].
    exists e'. unfold get_time_to_restore, try_except. now rewrite Hb.
  - intros rt self project_name repository_name branch_name start_date
      end_date client e w Hc. split.
    + intros Hb. split.
      * unfold get_deployment_frequency, bind, call. now rewrite Hc, Hb.
      * intros git listed Hg Hl.
        unfold get_lead_time_for_changes, get_repository_id, bind, call, ret.
        now rewrite Hc, Hg, Hl, Hb.
    + intros Hb. unfold get_change_failure_rate, bind, call.
      now rewrite Hc, Hb.
  - intros rt self project_name repository_name branch_name start_date
      end_date client git listed e w Hc Hg Hi Hl Hq.
    unfold get_time_to_restore, try_except.
    now rewrite (body_raises_on_query_error rt self project_name
                   repository_name branch_name start_date end_date client git
                   listed e w Hc Hg Hi Hl Hq).
Qed.

Lemma upstream_failure_policy_witness :
  for_builds Fixture.build_client_c "Contoso" (Some "6ce9")
    [Fixture.b201; Fixture.b202] [] Fixture.w0
  = for_builds Fixture.build_client_c "Contoso" (Some "6ce9")
      [Fixture.b202] []
      (build_diagnosed Fixture.w0 Fixture.b201 Fixture.unavailable)
  /\ (exists e',
        get_time_to_restore Fixture.rt Fixture.calc_c "Contoso" "WebApp"
          "main" Fixture.start Fixture.now Fixture.w0
        = (diagnosed Fixture.w0 e', Return 0%Qc))
  /\ (exists e',
        get_time_to_restore Fixture.rt Fixture.calc_u "Contoso" "WebApp"
          "main" Fixture.start Fixture.now Fixture.w0
        = (diagnosed Fixture.w0 e', Return 0%Qc))
  /\ get_deployment_frequency Fixture.calc_down "Contoso" "WebApp" "main"
       Fixture.start Fixture.now Fixture.w0
     = (Fixture.w0, Raise Fixture.unavailable)
  /\ get_lead_time_for_changes Fixture.rt Fixture.calc_down "Contoso"
       "WebApp" "main" Fixture.start Fixture.now Fixture.w0
     = (Fixture.w0, Raise Fixture.unavailable)
  /\ get_change_failure_rate Fixture.calc_down "Contoso" "WebApp" "main"
       Fixture.start Fixture.now Fixture.w0
     = (Fixture.w0, Raise Fixture.unavailable)
  /\ get_time_to_restore Fixture.rt Fixture.calc_d "Contoso" "WebApp" "main"
       Fixture.start Fixture.now Fixture.w0
     = (diagnosed Fixture.w0 Fixture.unavailable, Return 0%Qc).
Proof.
  destruct upstream_failure_policy as (Hbuild & Hitem & Hlist & Hquery).
  destruct (Hlist Fixture.rt Fixture.calc_down "Contoso" "WebApp" "main"
              Fixture.start Fixture.now Fixture.build_client_down
              Fixture.unavailable Fixture.w0 eq_refl) as [Hsucc Hall].
  destruct (Hsucc eq_refl) as [Hdf Hlt].
  refine (conj _ (conj _ (conj _ (conj Hdf (conj _ (conj (Hall eq_refl) _)))))).
  - exact (proj1 (Hbuild Fixture.build_client_c "Contoso" (Some "6ce9")
                    Fixture.b201 [Fixture.b202] [] [] Fixture.unavailable
                    Fixture.w0 eq_refl eq_refl)).
  - apply (Hitem Fixture.rt Fixture.calc_c "Contoso" "WebApp" "main"
             Fixture.start Fixture.now Fixture.work_client_98
             Fixture.git_client Fixture.repositories
             [ {| ref_id := 9 |}; {| ref_id := 8 |} ] {| ref_id := 9 |}
             Fixture.w0 eq_refl eq_refl eq_refl eq_refl eq_refl
             (or_introl eq_refl)).
    left. exists Fixture.unavailable. reflexivity.
  - apply (Hitem Fixture.rt Fixture.calc_u "Contoso" "WebApp" "main"
             Fixture.start Fixture.now Fixture.work_client_84
             Fixture.git_client Fixture.repositories
             [ {| ref_id := 8 |}; {| ref_id := 4 |} ] {| ref_id := 4 |}
             Fixture.w0 eq_refl eq_refl eq_refl eq_refl eq_refl
             (or_intror (or_introl eq_refl))).
    right.
    exists Fixture.bug4, "2024-10-20T08:00:00.000000Z", "2024-10-20T13:00:00Z",
      (Exn ValueError
         ("time data '" +:+ "2024-10-20T13:00:00Z"
          +:+ "' does not match format '%Y-%m-%dT%H:%M:%S.%fZ'")).
    repeat split; try reflexivity. right. reflexivity.
  - exact (Hlt Fixture.git_client Fixture.repositories eq_refl eq_refl).
  - exact (Hquery Fixture.rt Fixture.calc_d "Contoso" "WebApp" "main"
             Fixture.start Fixture.now Fixture.work_client_down
             Fixture.git_client Fixture.repositories Fixture.unavailable
             Fixture.w0 eq_refl eq_refl eq_refl eq_refl eq_refl).
Defined.

(** The run that meets the unavailable build 201 still reports the lead time
    of build 202, four hours, and prints one diagnostic. *)
Example lead_time_skips_failed_build :
  get_lead_time_for_changes Fixture.rt Fixture.calc_c "Contoso" "WebApp" "main"
    Fixture.start Fixture.now Fixture.w0
  = (World ["Error processing build 201: connection refused"] 0,
     Return (Qc_of_Z 4)).
Proof. vm_compute. apply returns_same_value; reflexivity. Qed.

(** ** The report *)

(** After the window is resolved, [get_all_metrics] runs the four reducers
    in order on that window and builds the dictionary. *)
Lemma get_all_metrics_steps
    (rt : Runtime) (self : DORAMetricsCalculator)
    (project_name repository_name branch_name : string) (days_back : Z)
    (w w0 : world) (window : TimeWindow) :
  resolve_window rt days_back w = (w0, Return window) ->
  get_all_metrics rt self project_name repository_name branch_name days_back w
  = bind (get_deployment_frequency self project_name repository_name
            branch_name (window_start window) (window_end window)) (fun d =>
    bind (get_lead_time_for_changes rt self project_name repository_name
            branch_name (window_start window) (window_end window)) (fun l =>
    bind (get_change_failure_rate self project_name repository_name
            branch_name (window_start window) (window_end window)) (fun c =>
    bind (get_time_to_restore rt self project_name repository_name
            branch_name (window_start window) (window_end window)) (fun t =>
    ret (metrics_report d l c t))))) w0.
Proof.
  intros Hw. unfold get_all_metrics. unfold bind at 1. now rewrite Hw.
Qed.

(** C1, as the code behaves: when the build service cannot list builds, the
    exception raised inside the deployment frequency reducer reaches the
    caller of [get_all_metrics]; no report is returned. *)
Lemma get_all_metrics_raises :
  get_all_metrics Fixture.rt Fixture.calc_down "Contoso" "WebApp" "main" 30
    Fixture.w0
  = (World [] 1, Raise Fixture.unavailable).
Proof. reflexivity. Qed.

(** C1, amended: once the window is resolved, an exception raised by the
    deployment frequency, lead time or change failure rate reducer reaches
    the caller of [get_all_metrics] and no report is returned; when these
    three return, the report is returned with their values and with the
    value of time to restore, which is 0 whenever anything raised inside
    that reducer. *)
Theorem get_all_metrics_failure_isolation
    (rt : Runtime) (self : DORAMetricsCalculator)
    (project_name repository_name branch_name : string) (days_back : Z)
    (w w0 : world) (window : TimeWindow) :
  resolve_window rt days_back w = (w0, Return window) ->
  let deployment_frequency :=
    get_deployment_frequency self project_name repository_name branch_name
      (window_start window) (window_end window) in
  let lead_time :=
    get_lead_time_for_changes rt self project_name repository_name branch_name
      (window_start window) (window_end window) in
  let failure_rate :=
    get_change_failure_rate self project_name repository_name branch_name
      (window_start window) (window_end window) in
  let time_to_restore :=
    get_time_to_restore rt self project_name repository_name branch_name
      (window_start window) (window_end window) in
  let all_metrics :=
    get_all_metrics rt self project_name repository_name branch_name
      days_back w in
  (forall w1 e,
     deployment_frequency w0 = (w1, Raise e) -> all_metrics = (w1, Raise e))
  /\ (forall w1 d w2 e,
        deployment_frequency w0 = (w1, Return d) ->
        lead_time w1 = (w2, Raise e) -> all_metrics = (w2, Raise e))
  /\ (forall w1 d w2 l w3 e,
        deployment_frequency w0 = (w1, Return d) ->
        lead_time w1 = (w2, Return l) ->
        failure_rate w2 = (w3, Raise e) -> all_metrics = (w3, Raise e))
  /\ (forall w1 d w2 l w3 c,
        deployment_frequency w0 = (w1, Return d) ->
        lead_time w1 = (w2, Return l) ->
        failure_rate w2 = (w3, Return c) ->
        exists w4 t,
          time_to_restore w3 = (w4, Return t)
          /\ all_metrics = (w4, Return (metrics_report d l c t))
          /\ forall w' e,
               time_to_restore_body rt self project_name repository_name
                 branch_name (window_start window) (window_end window) w3
               = (w', Raise e) ->
               t = 0%Qc /\ w4 = diagnosed w' e).
Proof.
  intros Hw deployment_frequency lead_time failure_rate time_to_restore
    all_metrics.
  subst all_metrics.
  rewrite (get_all_metrics_steps rt self project_name repository_name
             branch_name days_back w w0 window Hw).
  fold deployment_frequency lead_time failure_rate time_to_restore.
  repeat apply conj.
  - intros w1 e Hd. unfold bind. now rewrite Hd.
  - intros w1 d w2 e Hd Hl. unfold bind. now rewrite Hd, Hl.
  - intros w1 d w2 l w3 e Hd Hl Hf. unfold bind. now rewrite Hd, Hl, Hf.
  - intros w1 d w2 l w3 c Hd Hl Hf.
    destruct (get_time_to_restore_total rt self project_name repository_name
                branch_name (window_start window) (window_end window) w3)
      as (w4 & t & Ht & Hz).
    exists w4, t. split; [exact Ht|]. split; [|exact Hz].
    fold time_to_restore in Ht. unfold bind. now rewrite Hd, Hl, Hf, Ht.
Qed.

Lemma get_all_metrics_failure_isolation_witness :
  get_all_metrics Fixture.rt Fixture.calc_c "Contoso" "WebApp" "main" 30
    Fixture.w0
  = (World ["Error processing build 201: connection refused";
            "Error in get_time_to_restore: connection refused"] 1,
     Return (metrics_report (Qc_of_Z 1) (Qc_of_Z 4) 0%Qc 0%Qc))
  /\ get_all_metrics Fixture.rt Fixture.calc_down "Contoso" "WebApp" "main" 30
       Fixture.w0
     = (World [] 1, Raise Fixture.unavailable).
Proof.
  split.
  - destruct (get_all_metrics_failure_isolation Fixture.rt Fixture.calc_c
                "Contoso" "WebApp" "main" 30 Fixture.w0 (World [] 1)
                {| window_start := Fixture.start; window_end := Fixture.now |}
                eq_refl) as (_ & _ & _ & Hreport).
    destruct (Hreport (World [] 1) (Qc_of_Z 1)
                (World ["Error processing build 201: connection refused"] 1)
                (Qc_of_Z 4)
                (World ["Error processing build 201: connection refused"] 1)
                0%Qc
                ltac:(vm_compute; apply returns_same_value; reflexivity)
                ltac:(vm_compute; apply returns_same_value; reflexivity)
                ltac:(vm_compute; apply returns_same_value; reflexivity))
      as (w4 & t & _ & Hall & Hzero).
    destruct (Hzero _ Fixture.unavailable eq_refl) as [-> ->].
    exact Hall.
  - destruct (get_all_metrics_failure_isolation Fixture.rt Fixture.calc_down
                "Contoso" "WebApp" "main" 30 Fixture.w0 (World [] 1)
                {| window_start := Fixture.start; window_end := Fixture.now |}
                eq_refl) as (Hraise & _).
    exact (Hraise (World [] 1) Fixture.unavailable eq_refl).
Defined.

(** With collaborators that all answer, the report carries the four
    metrics. *)
Example get_all_metrics_report :
  exists w' report,
    get_all_metrics Fixture.rt Fixture.calc_a "Contoso" "WebApp" "main" 30
      Fixture.w0 = (w', Return report)
    /\ report !! "deployment_frequency" = Some (Q2Qc (5 # 2))
    /\ report !! "lead_time_for_changes" = Some 0%Qc
    /\ report !! "change_failure_rate" = Some (Qc_of_Z 30)
    /\ report !! "time_to_restore" = Some (Qc_of_Z 5).
Proof.
  exists (World [] 1),
    (metrics_report (Q2Qc (5 # 2)) 0%Qc (Qc_of_Z 30) (Qc_of_Z 5)).
  split; [|repeat split; reflexivity].
  rewrite (get_all_metrics_steps Fixture.rt Fixture.calc_a "Contoso" "WebApp"
             "main" 30 Fixture.w0 (World [] 1)
             {| window_start := Fixture.start; window_end := Fixture.now |}
             eq_refl).
  unfold bind. simpl window_start. simpl window_end.
  replace (get_deployment_frequency Fixture.calc_a "Contoso" "WebApp" "main"
             Fixture.start Fixture.now (World [] 1))
    with (World [] 1, Return (Q2Qc (5 # 2)))
    by (vm_compute; apply returns_same_value; reflexivity).
  replace (get_lead_time_for_changes Fixture.rt Fixture.calc_a "Contoso" "WebApp" "main"
             Fixture.start Fixture.now (World [] 1))
    with (World [] 1, Return 0%Qc)
    by (vm_compute; apply returns_same_value; reflexivity).
  replace (get_change_failure_rate Fixture.calc_a "Contoso" "WebApp" "main"
             Fixture.start Fixture.now (World [] 1))
    with (World [] 1, Return (Qc_of_Z 30))
    by (vm_compute; apply returns_same_value; reflexivity).
  replace (get_time_to_restore Fixture.rt Fixture.calc_a "Contoso" "WebApp"
             "main" Fixture.start Fixture.now (World [] 1))
    with (World [] 1, Return (Qc_of_Z 5))
    by (vm_compute; apply returns_same_value; reflexivity).
  reflexivity.
Qed.

(** * Further properties of the reducers *)

(** ** Sorting and the median *)

Lemma Qcleb_le (x y : Qc) : Qcleb x y = true <-> (x <= y)%Qc.
Proof. unfold Qcleb, Qcle. apply Qle_bool_iff. Qed.

Lemma Qcleb_gt (x y : Qc) : Qcleb x y = false -> (y <= x)%Qc.
Proof.
  intros H. destruct (Qclt_le_dec y x) as [Hlt|Hle].
  - now apply Qclt_le_weak.
  - apply Qcleb_le in Hle. congruence.
Qed.

Lemma insert_sorted_Permutation (x : Qc) (l : list Qc) :
  insert_sorted x l ≡ₚ x :: l.
Proof.
  induction l as [|y l IH]; simpl; [reflexivity|].
  destruct (Qcleb x y); [reflexivity|].
  rewrite IH. apply perm_swap.
Qed.

Lemma sort_Permutation (l : list Qc) : sort l ≡ₚ l.
Proof.
  induction l as [|x l IH]; [reflexivity|].
  unfold sort in *. simpl. rewrite insert_sorted_Permutation. now rewrite IH.
Qed.

Lemma insert_sorted_Sorted (x : Qc) (l : list Qc) :
  Sorted Qcle l -> Sorted Qcle (insert_sorted x l).
Proof.
  induction 1 as [|y l Hs IH Hd]; simpl; [repeat constructor|].
  destruct (Qcleb x y) eqn:E.
  - constructor; [now constructor|]. constructor. now apply Qcleb_le.
  - constructor; [exact IH|].
    apply Qcleb_gt in E. destruct Hd as [|z l Hyz]; simpl.
    + now constructor.
    + destruct (Qcleb x z); now constructor.
Qed.

Lemma sort_Sorted (l : list Qc) : Sorted Qcle (sort l).
Proof.
  induction l as [|x l IH]; [constructor|].
  unfold sort in *. simpl. now apply insert_sorted_Sorted.
Qed.

(** The sorted values do not depend on the order of the input. *)
Lemma sort_Permutation_eq (l k : list Qc) : l ≡ₚ k -> sort l = sort k.
Proof.
  intros H. apply (Sorted_unique Qcle); try apply sort_Sorted.
  now rewrite !sort_Permutation.
Qed.

Lemma median_Permutation (l k : list Qc) : l ≡ₚ k -> median l = median k.
Proof. intros H. unfold median. now rewrite (sort_Permutation_eq l k H). Qed.

Lemma median_or_0_Permutation (l k : list Qc) :
  l ≡ₚ k -> median_or_0 l = median_or_0 k.
Proof.
  intros H. destruct l as [|x l], k as [|y k]; simpl.
  - reflexivity.
  - apply Permutation_nil_l in H. discriminate.
  - apply Permutation_nil_r in H. discriminate.
  - now apply median_Permutation.
Qed.

(** ** Order of the listings *)

Lemma flat_map_pointwise_Permutation {A B} (f g : A -> list B) (l : list A) :
  (forall x, In x l -> f x ≡ₚ g x) ->
  flat_map f l ≡ₚ flat_map g l.
Proof.
  induction l as [|x l IH]; intros Hfg; simpl; [reflexivity|].
  apply Permutation_app; [apply Hfg; now left|].
  apply IH. intros z Hz. apply Hfg. now right.
Qed.

Lemma flat_map_Permutation {A B} (f g : A -> list B) (l k : list A) :
  l ≡ₚ k ->
  (forall x, In x l -> f x ≡ₚ g x) ->
  flat_map f l ≡ₚ flat_map g k.
Proof.
  intros Hlk Hfg. rewrite (flat_map_pointwise_Permutation f g l Hfg).
  now apply Permutation_flat_map.
Qed.

Lemma lead_time_of_answers (rt : Runtime) (self : DORAMetricsCalculator)
    (project_name repository_name branch_name : string)
    (start_date end_date : datetime)
    (builds : list Build) (changes_of : Z -> list Change) (w : world) :
  lead_time_answers rt self project_name repository_name branch_name
    start_date end_date builds changes_of ->
  get_lead_time_for_changes rt self project_name repository_name branch_name
    start_date end_date w
  = (w, Return (median_or_0 (flat_lead_times changes_of builds))).
Proof.
  intros (client & git & listed & Hc & Hg & Hl & Ht & Hb & Hf & Hn).
  unfold get_lead_time_for_changes, get_repository_id, bind, call, ret.
  rewrite Hc, Hg, Hl, Hb. now rewrite (for_builds_flat _ _ _ changes_of).
Qed.

Lemma change_values_Permutation (build : Build) (changes changes' : list Change) :
  changes ≡ₚ changes' ->
  change_values build changes ≡ₚ change_values build changes'.
Proof. intros H. unfold change_values. now apply Permutation_flat_map. Qed.

(** X5: lead time does not depend on the order in which the service lists the
    builds, nor on the order in which it lists the changes of a build: two
    runs whose listings are rearrangements of one another, every call
    answered, report the same lead time. *)
Theorem lead_time_order_independent (rt : Runtime)
    (self1 self2 : DORAMetricsCalculator)
    (project_name repository_name branch_name : string)
    (start_date end_date : datetime)
    (builds1 builds2 : list Build) (changes1 changes2 : Z -> list Change)
    (w : world) :
  lead_time_answers rt self1 project_name repository_name branch_name
    start_date end_date builds1 changes1 ->
  lead_time_answers rt self2 project_name repository_name branch_name
    start_date end_date builds2 changes2 ->
  builds1 ≡ₚ builds2 ->
  (forall build, In build builds1 ->
     changes1 (build_id build) ≡ₚ changes2 (build_id build)) ->
  get_lead_time_for_changes rt self1 project_name repository_name branch_name
    start_date end_date w
  = get_lead_time_for_changes rt self2 project_name repository_name branch_name
      start_date end_date w.
Proof.
  intros H1 H2 Hb Hc.
  rewrite (lead_time_of_answers _ _ _ _ _ _ _ _ _ w H1),
          (lead_time_of_answers _ _ _ _ _ _ _ _ _ w H2).
  do 2 f_equal. apply median_or_0_Permutation.
  unfold flat_lead_times. apply flat_map_Permutation; [exact Hb|].
  intros build Hin. apply change_values_Permutation. now apply Hc.
Qed.

Lemma lead_time_answers_b :
  lead_time_answers Fixture.rt Fixture.calc_b "Contoso" "WebApp" "main" Fixture.start
    Fixture.now [Fixture.b101] (fun _ => Fixture.changes_b).
Proof.
  exists Fixture.build_client_b, Fixture.git_client, Fixture.repositories.
  repeat split; try reflexivity.
  - intros build [<-|[]]. reflexivity.
  - intros build change _ Hc. simpl in Hc.
    destruct Hc as [<-|[<-|[<-|[<-|[]]]]]; discriminate.
Defined.

Lemma lead_time_answers_b_shuffled :
  lead_time_answers Fixture.rt Fixture.calc_b_shuffled "Contoso" "WebApp" "main"
    Fixture.start Fixture.now [Fixture.b101] (fun _ => rev Fixture.changes_b).
Proof.
  exists Fixture.build_client_b_shuffled, Fixture.git_client,
    Fixture.repositories.
  repeat split; try reflexivity.
  - intros build [<-|[]]. reflexivity.
  - intros build change _ Hc. simpl in Hc.
    destruct Hc as [<-|[<-|[<-|[<-|[]]]]]; discriminate.
Defined.

Lemma lead_time_order_independent_witness :
  get_lead_time_for_changes Fixture.rt Fixture.calc_b "Contoso" "WebApp" "main"
    Fixture.start Fixture.now Fixture.w0
  = get_lead_time_for_changes Fixture.rt Fixture.calc_b_shuffled "Contoso" "WebApp"
      "main" Fixture.start Fixture.now Fixture.w0.
Proof.
  apply (lead_time_order_independent Fixture.rt Fixture.calc_b Fixture.calc_b_shuffled
           "Contoso" "WebApp" "main" Fixture.start Fixture.now
           [Fixture.b101] [Fixture.b101]
           (fun _ => Fixture.changes_b) (fun _ => rev Fixture.changes_b)
           Fixture.w0 lead_time_answers_b lead_time_answers_b_shuffled).
  - reflexivity.
  - intros build _. apply Permutation_rev.
Defined.

Lemma restore_of_answers (rt : Runtime) (self : DORAMetricsCalculator)
    (project_name repository_name branch_name : string)
    (start_date end_date : datetime)
    (refs : list WorkItemReference) (item_of : Z -> WorkItem) (w : world) :
  restore_answers rt self project_name branch_name start_date end_date
    refs item_of ->
  get_time_to_restore rt self project_name repository_name branch_name
    start_date end_date w
  = (w, Return (median_or_0
                  (restoration_values rt (fun _ => true)
                     (map (fun ref => item_of (ref_id ref)) refs)))).
Proof.
  intros (client & git & listed & Hc & Hg & Hi & Hl & Hq & Hf & Hp).
  unfold get_time_to_restore, try_except, time_to_restore_body,
    get_repository_id, bind, call, ret.
  rewrite Hc, Hg, Hi, Hl, Hq.
  destruct refs as [|ref rest]; [reflexivity|].
  now rewrite (for_work_items_all rt client item_of).
Qed.

(** X9: time to restore does not depend on the order in which the tracker lists
    the incidents: two runs whose query results are rearrangements of one
    another, every call answered, report the same value. *)
Theorem time_to_restore_order_independent
    (rt : Runtime) (self1 self2 : DORAMetricsCalculator)
    (project_name repository_name branch_name : string)
    (start_date end_date : datetime)
    (refs1 refs2 : list WorkItemReference) (item_of : Z -> WorkItem)
    (w : world) :
  restore_answers rt self1 project_name branch_name start_date end_date
    refs1 item_of ->
  restore_answers rt self2 project_name branch_name start_date end_date
    refs2 item_of ->
  refs1 ≡ₚ refs2 ->
  get_time_to_restore rt self1 project_name repository_name branch_name
    start_date end_date w
  = get_time_to_restore rt self2 project_name repository_name branch_name
      start_date end_date w.
Proof.
  intros H1 H2 Hp.
  rewrite (restore_of_answers _ _ _ repository_name _ _ _ _ _ w H1),
          (restore_of_answers _ _ _ repository_name _ _ _ _ _ w H2).
  do 2 f_equal. apply median_or_0_Permutation.
  unfold restoration_values. apply Permutation_flat_map.
  now apply Permutation_map.
Qed.

Lemma restore_answers_tracker (refs : list Z) :
  (forall id, In id refs -> id = 5 \/ id = 6 \/ id = 7 \/ id = 8) ->
  restore_answers Fixture.rt (Fixture.calc_t refs) "Contoso" "main"
    Fixture.start Fixture.now
    (map (fun id => {| ref_id := id |}) refs) Fixture.stored_bug.
Proof.
  intros Hids.
  exists (Fixture.tracker refs), Fixture.git_client, Fixture.repositories.
  repeat split; try reflexivity.
  intros ref s Hin Hs. apply in_map_iff in Hin as (id & Heq & Hid). subst ref.
  simpl in Hs.
  destruct (Hids id Hid) as [-> | [-> | [-> | ->]]];
    destruct Hs as [Hs|Hs]; vm_compute in Hs;
    first [discriminate | injection Hs as <-; eexists; reflexivity].
Defined.

Lemma time_to_restore_order_independent_witness :
  get_time_to_restore Fixture.rt (Fixture.calc_t [6; 7; 8]) "Contoso" "WebApp"
    "main" Fixture.start Fixture.now Fixture.w0
  = get_time_to_restore Fixture.rt (Fixture.calc_t [8; 6; 7]) "Contoso"
      "WebApp" "main" Fixture.start Fixture.now Fixture.w0.
Proof.
  apply (time_to_restore_order_independent Fixture.rt
           (Fixture.calc_t [6; 7; 8]) (Fixture.calc_t [8; 6; 7])
           "Contoso" "WebApp" "main" Fixture.start Fixture.now
           (map (fun id => {| ref_id := id |}) [6; 7; 8])
           (map (fun id => {| ref_id := id |}) [8; 6; 7])
           Fixture.stored_bug Fixture.w0).
  - apply restore_answers_tracker. simpl. intuition.
  - apply restore_answers_tracker. simpl. intuition.
  - simpl. etransitivity; [apply perm_skip, perm_swap|apply perm_swap].
Defined.

(** ** Incomplete records *)

Lemma restoration_values_incomplete (rt : Runtime) (keep : datetime -> bool)
    (items1 items2 : list WorkItem) (item : WorkItem) :
  fields item !! "System.CreatedDate" = None
  \/ fields item !! "System.ChangedDate" = None ->
  restoration_values rt keep (items1 ++ item :: items2)
  = restoration_values rt keep (items1 ++ items2).
Proof.
  intros H. unfold restoration_values. rewrite !flat_map_app. f_equal.
  simpl. destruct H as [H|H]; rewrite H; [reflexivity|].
  now destruct (fields item !! "System.CreatedDate").
Qed.

(** X10: an incident that lacks its creation date or its changed date is left out
    of the median, not counted as zero: the reducer returns what it returns
    for the same query results without that incident. *)
Theorem time_to_restore_skips_incomplete
    (rt : Runtime) (self : DORAMetricsCalculator)
    (project_name repository_name branch_name : string)
    (start_date end_date : datetime)
    (refs1 refs2 : list WorkItemReference) (ref : WorkItemReference)
    (item_of : Z -> WorkItem) (w : world) :
  restore_answers rt self project_name branch_name start_date end_date
    (refs1 ++ ref :: refs2) item_of ->
  fields (item_of (ref_id ref)) !! "System.CreatedDate" = None
  \/ fields (item_of (ref_id ref)) !! "System.ChangedDate" = None ->
  get_time_to_restore rt self project_name repository_name branch_name
    start_date end_date w
  = (w, Return (median_or_0
                  (restoration_values rt (fun _ => true)
                     (map (fun r => item_of (ref_id r)) (refs1 ++ refs2))))).
Proof.
  intros Ha Hm.
  rewrite (restore_of_answers _ _ _ repository_name _ _ _ _ _ w Ha).
  rewrite !map_app. simpl map.
  now rewrite (restoration_values_incomplete rt _ _ _ _ Hm).
Qed.

Lemma time_to_restore_skips_incomplete_witness :
  get_time_to_restore Fixture.rt (Fixture.calc_t [5; 8]) "Contoso" "WebApp"
    "main" Fixture.start Fixture.now Fixture.w0
  = (Fixture.w0,
     Return (median_or_0
               (restoration_values Fixture.rt (fun _ => true) [Fixture.bug8]))).
Proof.
  apply (time_to_restore_skips_incomplete Fixture.rt (Fixture.calc_t [5; 8])
           "Contoso" "WebApp" "main" Fixture.start Fixture.now
           [] [ {| ref_id := 8 |} ] {| ref_id := 5 |} Fixture.stored_bug
           Fixture.w0).
  - apply (restore_answers_tracker [5; 8]). simpl. intuition.
  - left. reflexivity.
Defined.

(** The change loop stops at the first change whose timestamp is [None]: the
    values of the changes before it are kept, the changes after it are not
    looked at, and the subtraction's [TypeError] is raised. *)
Lemma for_changes_none (build : Build) (before after : list Change)
    (change : Change) (lead_times : list Qc) :
  (forall c, In c before -> timestamp c <> AttrNone) ->
  timestamp change = AttrNone ->
  for_changes build (before ++ change :: after) lead_times
  = (lead_times ++ change_values build before,
     Raise (Exn TypeError
       "unsupported operand type(s) for -: 'datetime.datetime' and 'NoneType'")).
Proof.
  revert lead_times. induction before as [|c before IH]; intros lead_times Hb Hn.
  - simpl. rewrite Hn. now rewrite app_nil_r.
  - simpl. destruct (timestamp c) as [| |commit_time] eqn:E.
    + apply IH; [|exact Hn]. intros x Hx. apply Hb. now right.
    + exfalso. apply (Hb c); [now left|exact E].
    + rewrite IH; [|intros x Hx; apply Hb; now right|exact Hn].
      rewrite lead_hours_between, <- app_assoc. reflexivity.
Qed.

(** X6: a build one of whose changes has a [None] timestamp contributes the
    values of the changes listed before that one and nothing of the changes
    listed after it; one diagnostic is printed and the loop goes on with the
    next build. *)
Theorem lead_time_none_timestamp
    (client : BuildClient) (project_name : string) (repo_id : option string)
    (build : Build) (rest : list Build) (before after : list Change)
    (change : Change) (lead_times : list Qc) (w : world) :
  truthy repo_id = true ->
  get_build_changes client project_name (build_id build)
  = Return (before ++ change :: after) ->
  (forall c, In c before -> timestamp c <> AttrNone) ->
  timestamp change = AttrNone ->
  for_builds client project_name repo_id (build :: rest) lead_times w
  = for_builds client project_name repo_id rest
      (lead_times ++ change_values build before)
      (build_diagnosed w build
         (Exn TypeError
            "unsupported operand type(s) for -: 'datetime.datetime' and 'NoneType'")).
Proof.
  intros Ht Hc Hb Hn. simpl. rewrite Ht. unfold try_build_changes.
  rewrite Hc, (for_changes_none build before after change lead_times Hb Hn).
  reflexivity.
Qed.

Lemma lead_time_none_timestamp_witness :
  for_builds Fixture.build_client_e "Contoso" (Some "6ce9") [Fixture.b101]
    [] Fixture.w0
  = for_builds Fixture.build_client_e "Contoso" (Some "6ce9") []
      ([] ++ change_values Fixture.b101
               [ {| timestamp := AttrValue (mk_datetime 2024 10 20 11 0 0 0) |} ])
      (build_diagnosed Fixture.w0 Fixture.b101
         (Exn TypeError
            "unsupported operand type(s) for -: 'datetime.datetime' and 'NoneType'")).
Proof.
  apply (lead_time_none_timestamp Fixture.build_client_e "Contoso"
           (Some "6ce9") Fixture.b101 []
           [ {| timestamp := AttrValue (mk_datetime 2024 10 20 11 0 0 0) |} ]
           [ {| timestamp := AttrValue (mk_datetime 2024 10 20 9 0 0 0) |} ]
           {| timestamp := AttrNone |} [] Fixture.w0).
  - reflexivity.
  - reflexivity.
  - intros c [<-|[]]. discriminate.
  - reflexivity.
Defined.

(** The run over that build reports the one hour of its first change; the
    three hours of its third change are lost. *)
Example lead_time_after_none_timestamp :
  get_lead_time_for_changes Fixture.rt Fixture.calc_e "Contoso" "WebApp" "main"
    Fixture.start Fixture.now Fixture.w0
  = (World ["Error processing build 101: unsupported operand type(s) for -: 'datetime.datetime' and 'NoneType'"] 0,
     Return (Qc_of_Z 1)).
Proof. vm_compute. apply returns_same_value; reflexivity. Qed.

(** ** Ranges of the build metrics *)

Lemma this_div_Z (a b : Z) :
  0 < b -> this (Qc_of_Z a / Qc_of_Z b)%Qc == Qmake a (Z.to_pos b).
Proof.
  intros Hb. unfold Qcdiv, Qcmult, Qcinv. simpl this. rewrite !Qred_correct.
  destruct b as [|p|p]; try lia.
  unfold Qeq, Qmult, Qinv, inject_Z. simpl. lia.
Qed.

Lemma Qc_of_Z_le (a b : Z) : a <= b -> (Qc_of_Z a <= Qc_of_Z b)%Qc.
Proof. intros H. unfold Qcle, Qle. simpl. lia. Qed.

Lemma Qc_ratio_ge_1 (n k : Z) :
  0 < k <= n -> (Qc_of_Z 1 <= Qc_of_Z n / Qc_of_Z k)%Qc.
Proof.
  intros H. unfold Qcle. rewrite this_div_Z by lia.
  unfold Qle. simpl. rewrite Z2Pos.id by lia. lia.
Qed.

Lemma Qc_ratio_le_n (n k : Z) :
  0 < k <= n -> (Qc_of_Z n / Qc_of_Z k <= Qc_of_Z n)%Qc.
Proof.
  intros H. unfold Qcle. rewrite this_div_Z by lia.
  unfold Qle. simpl. rewrite Z2Pos.id by lia. nia.
Qed.

Lemma Qc_ratio_1 (n : Z) : (Qc_of_Z n / Qc_of_Z 1)%Qc = Qc_of_Z n.
Proof.
  apply Qc_is_canon. rewrite this_div_Z by lia. simpl. reflexivity.
Qed.

Lemma length_remove_dups_le (l : list Z) :
  (length (remove_dups l) <= length l)%nat.
Proof.
  induction l as [|x l IH]; simpl; [lia|].
  destruct (decide_rel elem_of x l); simpl; lia.
Qed.

Lemma length_remove_dups_pos (l : list Z) :
  l <> [] -> (0 < length (remove_dups l))%nat.
Proof.
  destruct l as [|x l]; [congruence|]. intros _.
  assert (H : x ∈ remove_dups (x :: l)) by (apply elem_of_remove_dups; left).
  destruct (remove_dups (x :: l)); [inversion H|simpl; lia].
Qed.

Lemma NoDup_constant_length (d : Z) (l : list Z) :
  NoDup l -> (forall x, In x l -> x = d) -> (length l <= 1)%nat.
Proof.
  intros Hnd Hc. destruct Hnd as [|x l Hx Hnd]; [simpl; lia|].
  destruct l as [|y l]; [simpl; lia|].
  exfalso. apply Hx. rewrite (Hc x), (Hc y); [left| |]; simpl; auto.
Qed.

(** Deployment frequency as a ratio: builds over distinct days. *)
Lemma get_deployment_frequency_ratio
    (self : DORAMetricsCalculator)
    (project_name repository_name branch_name : string)
    (start_date end_date : datetime)
    (client : BuildClient) (builds : list Build) (w : world) :
  get_build_client (connection self) = Return client ->
  get_builds client project_name start_date end_date "completed"
    (Some "succeeded") (branch_ref branch_name) = Return builds ->
  builds <> [] ->
  get_deployment_frequency self project_name repository_name branch_name
    start_date end_date w
  = (w, Return (Qc_of_Z (Z.of_nat (length builds))
                / Qc_of_Z (Z.of_nat
                    (length (remove_dups
                       (map (fun b => date (finish_time b)) builds)))))%Qc).
Proof.
  intros Hc Hb Hne.
  unfold get_deployment_frequency, bind, call, ret. rewrite Hc, Hb.
  destruct builds as [|b builds]; [congruence|].
  set (deploy_dates := map (fun b0 => date (finish_time b0)) (b :: builds)).
  assert (Hd : exists d l, deploy_dates = d :: l) by (simpl; eauto).
  destruct Hd as (d & l & Hd). rewrite Hd at 1.
  unfold mean. rewrite sum_Z_value_counts. unfold value_counts.
  rewrite !length_map. unfold deploy_dates at 1. now rewrite length_map.
Qed.

(** X2: with at least one successful build, deployment frequency lies between 1
    and the number of builds, and it is the number of builds when they all
    finished on the same calendar day. *)
Theorem deployment_frequency_range
    (self : DORAMetricsCalculator)
    (project_name repository_name branch_name : string)
    (start_date end_date : datetime)
    (client : BuildClient) (builds : list Build) (w : world) :
  get_build_client (connection self) = Return client ->
  get_builds client project_name start_date end_date "completed"
    (Some "succeeded") (branch_ref branch_name) = Return builds ->
  builds <> [] ->
  exists freq,
    get_deployment_frequency self project_name repository_name branch_name
      start_date end_date w = (w, Return freq)
    /\ (Qc_of_Z 1 <= freq)%Qc
    /\ (freq <= Qc_of_Z (Z.of_nat (length builds)))%Qc
    /\ ((forall b b', In b builds -> In b' builds ->
           date (finish_time b) = date (finish_time b')) ->
        freq = Qc_of_Z (Z.of_nat (length builds))).
Proof.
  intros Hc Hb Hne. eexists. split.
  - now apply (get_deployment_frequency_ratio _ _ _ _ _ _ client builds).
  - set (dates := map (fun b => date (finish_time b)) builds).
    assert (Hlen : length dates = length builds) by apply length_map.
    assert (Hpos : (0 < length (remove_dups dates))%nat).
    { apply length_remove_dups_pos. intros E. apply Hne.
      destruct builds; [reflexivity|discriminate]. }
    pose proof (length_remove_dups_le dates) as Hle.
    split; [apply Qc_ratio_ge_1; lia|].
    split; [apply Qc_ratio_le_n; lia|].
    intros Hsame.
    assert (Hone : length (remove_dups dates) = 1%nat).
    { destruct builds as [|b0 builds0] eqn:Eb; [congruence|].
      assert (H1 : (length (remove_dups dates) <= 1)%nat).
      { apply (NoDup_constant_length (date (finish_time b0)));
          [apply NoDup_remove_dups|].
        intros x Hx.
        rewrite <- list_elem_of_In, elem_of_remove_dups, list_elem_of_In in Hx.
        apply in_map_iff in Hx as (b' & Heq & Hb'). subst x.
        apply Hsame; [exact Hb'|now left]. }
      lia. }
    rewrite Hone. apply Qc_ratio_1.
Qed.

Lemma deployment_frequency_range_witness :
  exists freq,
    get_deployment_frequency Fixture.calc_a "Contoso" "WebApp" "main"
      Fixture.start Fixture.now Fixture.w0 = (Fixture.w0, Return freq)
    /\ (Qc_of_Z 1 <= freq)%Qc
    /\ (freq <= Qc_of_Z 5)%Qc
    /\ ((forall b b',
           In b (map Fixture.sb_build (firstn 5 Fixture.store_a)) ->
           In b' (map Fixture.sb_build (firstn 5 Fixture.store_a)) ->
           date (finish_time b) = date (finish_time b')) ->
        freq = Qc_of_Z 5).
Proof.
  exact (deployment_frequency_range Fixture.calc_a "Contoso" "WebApp" "main"
           Fixture.start Fixture.now Fixture.build_client_a
           (map Fixture.sb_build (firstn 5 Fixture.store_a)) Fixture.w0
           eq_refl eq_refl ltac:(discriminate)).
Defined.

Lemma remove_dups_Permutation (l k : list Z) :
  l ≡ₚ k -> remove_dups l ≡ₚ remove_dups k.
Proof.
  intros H. apply NoDup_Permutation; try apply NoDup_remove_dups.
  intros x. rewrite !elem_of_remove_dups. now rewrite H.
Qed.

(** X3: deployment frequency does not depend on the order in which the service
    lists the builds. *)
Theorem deployment_frequency_order_independent
    (self1 self2 : DORAMetricsCalculator)
    (project_name repository_name branch_name : string)
    (start_date end_date : datetime)
    (client1 client2 : BuildClient) (builds1 builds2 : list Build)
    (w : world) :
  get_build_client (connection self1) = Return client1 ->
  get_build_client (connection self2) = Return client2 ->
  get_builds client1 project_name start_date end_date "completed"
    (Some "succeeded") (branch_ref branch_name) = Return builds1 ->
  get_builds client2 project_name start_date end_date "completed"
    (Some "succeeded") (branch_ref branch_name) = Return builds2 ->
  builds1 ≡ₚ builds2 ->
  get_deployment_frequency self1 project_name repository_name branch_name
    start_date end_date w
  = get_deployment_frequency self2 project_name repository_name branch_name
      start_date end_date w.
Proof.
  intros Hc1 Hc2 Hb1 Hb2 Hp.
  destruct builds1 as [|b1 builds1].
  - apply Permutation_nil_l in Hp. subst builds2.
    unfold get_deployment_frequency, bind, call, ret.
    now rewrite Hc1, Hc2, Hb1, Hb2.
  - assert (Hne2 : builds2 <> []).
    { intros ->. apply Permutation_nil_r in Hp. discriminate. }
    rewrite (get_deployment_frequency_ratio _ _ _ _ _ _ client1 _ w Hc1 Hb1)
      by discriminate.
    rewrite (get_deployment_frequency_ratio _ _ _ _ _ _ client2 _ w Hc2 Hb2)
      by exact Hne2.
    rewrite (Permutation_length Hp).
    assert (Hd : remove_dups (map (fun b => date (finish_time b)) (b1 :: builds1))
                 ≡ₚ remove_dups (map (fun b => date (finish_time b)) builds2)).
    { apply remove_dups_Permutation. now apply Permutation_map. }
    now rewrite (Permutation_length Hd).
Qed.

Lemma deployment_frequency_order_independent_witness :
  get_deployment_frequency Fixture.calc_a "Contoso" "WebApp" "main"
    Fixture.start Fixture.now Fixture.w0
  = get_deployment_frequency Fixture.calc_a_reversed "Contoso" "WebApp" "main"
      Fixture.start Fixture.now Fixture.w0.
Proof.
  apply (deployment_frequency_order_independent Fixture.calc_a
           Fixture.calc_a_reversed "Contoso" "WebApp" "main" Fixture.start
           Fixture.now Fixture.build_client_a Fixture.build_client_a_reversed
           (map Fixture.sb_build (firstn 5 Fixture.store_a))
           (rev (map Fixture.sb_build (firstn 5 Fixture.store_a)))
           Fixture.w0 eq_refl eq_refl eq_refl eq_refl).
  apply Permutation_rev.
Defined.

Lemma this_percentage (a b : Z) :
  0 < b ->
  this (Qc_of_Z a / Qc_of_Z b * Qc_of_Z 100)%Qc == Qmake (a * 100) (Z.to_pos b).
Proof.
  intros Hb. unfold Qcmult at 1. simpl this. rewrite Qred_correct.
  transitivity (Qmake a (Z.to_pos b) * inject_Z 100)%Q.
  - apply Qmult_comp; [now apply this_div_Z|reflexivity].
  - unfold Qeq, Qmult, inject_Z. simpl. lia.
Qed.

Lemma Qc_eq_this (x y : Qc) : x = y <-> this x == this y.
Proof. split; [now intros ->|apply Qc_is_canon]. Qed.

Lemma failure_rate_range (failed total : nat) :
  (failed <= total)%nat ->
  (0 <= failure_rate failed total)%Qc
  /\ (failure_rate failed total <= Qc_of_Z 100)%Qc
  /\ (failure_rate failed total = 0%Qc <-> failed = 0%nat)
  /\ (failure_rate failed total = Qc_of_Z 100
      <-> total <> 0%nat /\ failed = total).
Proof.
  intros Hle. destruct total as [|n].
  - assert (failed = 0%nat) as -> by lia. simpl.
    split; [discriminate|]. split; [discriminate|]. split; [tauto|].
    split.
    + intros H. apply Qc_eq_this in H. discriminate.
    + intros [H _]. congruence.
  - unfold failure_rate.
    assert (Hpos : 0 < Z.of_nat (S n)) by lia.
    pose proof (this_percentage (Z.of_nat failed) (Z.of_nat (S n)) Hpos) as E.
    assert (Hp : Z.pos (Z.to_pos (Z.of_nat (S n))) = Z.of_nat (S n))
      by (apply Z2Pos.id; lia).
    revert E Hp. generalize (Z.to_pos (Z.of_nat (S n))). intros p E Hp.
    split; [unfold Qcle; change (this (Q2Qc 0)) with (0 # 1)%Q; rewrite E;
            unfold Qle; cbn [Qnum Qden]; lia|].
    split; [unfold Qcle; rewrite E; unfold Qle; cbn [Qnum Qden this Qc_of_Z inject_Z]; lia|].
    split; split.
    + intros H. apply Qc_eq_this in H.
      change (this (Q2Qc 0)) with (0 # 1)%Q in H. rewrite E in H.
      unfold Qeq in H. cbn [Qnum Qden] in H. lia.
    + intros ->. apply Qc_eq_this.
      change (this (Q2Qc 0)) with (0 # 1)%Q. rewrite E. reflexivity.
    + intros H. apply Qc_eq_this in H. rewrite E in H.
      unfold Qeq in H. cbn [Qnum Qden this Qc_of_Z inject_Z] in H.
      split; [discriminate|]. lia.
    + intros [_ ->]. apply Qc_eq_this. rewrite E.
      unfold Qeq. cbn [Qnum Qden this Qc_of_Z inject_Z]. lia.
Qed.

Lemma filter_length_0 {A} (P : A -> Prop) `{!forall x, Decision (P x)}
    (l : list A) :
  length (filter P l) = 0%nat <-> forall x, In x l -> ~ P x.
Proof.
  induction l as [|x l IH]; [simpl; tauto|].
  rewrite filter_cons. destruct (decide (P x)) as [Hp|Hp]; simpl.
  - split; [discriminate|]. intros Hn. exfalso. apply (Hn x); auto.
  - rewrite IH. split.
    + intros Hn y [<-|Hy]; auto.
    + intros Hn y Hy. apply Hn. now right.
Qed.

Lemma filter_length_all {A} (P : A -> Prop) `{!forall x, Decision (P x)}
    (l : list A) :
  length (filter P l) = length l <-> forall x, In x l -> P x.
Proof.
  induction l as [|x l IH]; [simpl; tauto|].
  rewrite filter_cons. pose proof (length_filter P l) as Hle.
  destruct (decide (P x)) as [Hp|Hp]; simpl.
  - split.
    + intros Ha y [<-|Hy]; [exact Hp|]. apply IH; [lia|exact Hy].
    + intros Ha. f_equal. apply IH. intros y Hy. apply Ha. now right.
  - split; [lia|]. intros Ha. exfalso. apply Hp, Ha. now left.
Qed.

(** X4: the change failure rate is a percentage: it lies between 0 and 100; it
    is 0 exactly when no listed build has the result "failed", and 100
    exactly when there is a build and every listed build has that result. *)
Theorem change_failure_rate_range
    (self : DORAMetricsCalculator)
    (project_name repository_name branch_name : string)
    (start_date end_date : datetime)
    (client : BuildClient) (builds : list Build) (w : world) :
  get_build_client (connection self) = Return client ->
  get_builds client project_name start_date end_date "completed" None
    (branch_ref branch_name) = Return builds ->
  exists rate,
    get_change_failure_rate self project_name repository_name branch_name
      start_date end_date w = (w, Return rate)
    /\ (0 <= rate)%Qc
    /\ (rate <= Qc_of_Z 100)%Qc
    /\ (rate = 0%Qc <-> forall b, In b builds -> build_result b <> "failed")
    /\ (rate = Qc_of_Z 100
        <-> builds <> [] /\ forall b, In b builds -> build_result b = "failed").
Proof.
  intros Hc Hb.
  exists (failure_rate
            (length (filter (fun b => build_result b = "failed") builds))
            (length builds)).
  split.
  - unfold get_change_failure_rate, bind, call, ret.
    rewrite Hc, Hb. unfold failure_rate.
    destruct builds as [|b builds]; [reflexivity|].
    destruct (Z.ltb_spec 0 (Z.of_nat (length (b :: builds)))) as [_|H];
      [reflexivity|]. simpl length in H. lia.
  - destruct (failure_rate_range
                (length (filter (fun b => build_result b = "failed") builds))
                (length builds) (length_filter _ _))
      as (H0 & H100 & Hz & Hall).
    split; [exact H0|]. split; [exact H100|]. split.
    + rewrite Hz. apply filter_length_0.
    + rewrite Hall, filter_length_all.
      destruct builds as [|b builds]; simpl; split; intros [Hn Ha];
        split; try exact Ha; congruence.
Qed.

Lemma change_failure_rate_range_witness :
  exists rate,
    get_change_failure_rate Fixture.calc_a "Contoso" "WebApp" "main"
      Fixture.start Fixture.now Fixture.w0 = (Fixture.w0, Return rate)
    /\ (0 <= rate)%Qc
    /\ (rate <= Qc_of_Z 100)%Qc
    /\ (rate = 0%Qc
        <-> forall b, In b (map Fixture.sb_build (firstn 10 Fixture.store_a)) ->
              build_result b <> "failed")
    /\ (rate = Qc_of_Z 100
        <-> map Fixture.sb_build (firstn 10 Fixture.store_a) <> []
            /\ forall b,
                 In b (map Fixture.sb_build (firstn 10 Fixture.store_a)) ->
                 build_result b = "failed").
Proof.
  exact (change_failure_rate_range Fixture.calc_a "Contoso" "WebApp" "main"
           Fixture.start Fixture.now Fixture.build_client_a
           (map Fixture.sb_build (firstn 10 Fixture.store_a)) Fixture.w0
           eq_refl eq_refl).
Defined.

(** ** Names and durations *)

Lemma find_repository_lower (rt : Runtime) (repositories : list GitRepository)
    (name1 name2 : string) :
  str_lower rt name1 = str_lower rt name2 ->
  find_repository rt repositories name1 = find_repository rt repositories name2.
Proof.
  intros H. induction repositories as [|repo rest IH]; simpl; [reflexivity|].
  now rewrite H, IH.
Qed.

(** X1: two spellings of a repository name that differ only in case resolve to
    the same outcome: the same id, the same [None], or the same exception. *)
Theorem get_repository_id_same_up_to_case
    (rt : Runtime) (self : DORAMetricsCalculator)
    (project_name name1 name2 : string) (w : world) :
  lowers_ascii rt ->
  eq_ignore_case name1 name2 ->
  get_repository_id rt self project_name name1 w
  = get_repository_id rt self project_name name2 w.
Proof.
  intros [_ Hl] H. apply Hl in H.
  unfold get_repository_id, bind, call, ret.
  destruct (get_git_client (connection self)) as [git|e]; [|reflexivity].
  destruct (get_repositories git project_name) as [listed|e]; [|reflexivity].
  now rewrite (find_repository_lower rt listed name1 name2 H).
Qed.

Lemma get_repository_id_same_up_to_case_witness :
  eq_ignore_case "WEBAPP" "webApp"
  /\ get_repository_id Fixture.rt Fixture.calc_b "Contoso" "WEBAPP" Fixture.w0
     = get_repository_id Fixture.rt Fixture.calc_b "Contoso" "webApp"
         Fixture.w0.
Proof.
  assert (H : eq_ignore_case "WEBAPP" "webApp")
    by (apply lower_eq_ignore_case; reflexivity).
  split; [exact H|].
  exact (get_repository_id_same_up_to_case Fixture.rt Fixture.calc_b
           "Contoso" "WEBAPP" "webApp" Fixture.w0 lowers_ascii_fixture H).
Defined.

Lemma this_hours_between (later earlier : datetime) :
  this (hours_between later earlier)
  == Qmake (later - earlier) (Z.to_pos (3600 * US_PER_SECOND)).
Proof. unfold hours_between. simpl this. apply Qred_correct. Qed.

(** X8: durations are signed and not clamped: the lead time of a change is
    negative exactly when the change was committed after the build finished,
    zero exactly when the two instants coincide, and exchanging the two
    instants changes its sign; the same holds for restoration times. *)
Theorem durations_are_signed (later earlier : datetime) :
  ((lead_hours later earlier < 0)%Qc <-> later < earlier)
  /\ (lead_hours later earlier = 0%Qc <-> later = earlier)
  /\ lead_hours later earlier = (- lead_hours earlier later)%Qc
  /\ restore_hours later earlier = lead_hours later earlier.
Proof.
  rewrite restore_hours_between, !lead_hours_between.
  split; [|split; [|split; [|reflexivity]]].
  - unfold Qclt. change (this 0%Qc) with (0 # 1)%Q.
    rewrite this_hours_between. unfold Qlt. cbn [Qnum Qden]. lia.
  - rewrite Qc_eq_this. change (this (Q2Qc 0)) with (0 # 1)%Q.
    rewrite this_hours_between. unfold Qeq. cbn [Qnum Qden]. lia.
  - apply Qc_is_canon. unfold Qcopp. cbn [this Q2Qc]. rewrite Qred_correct.
    rewrite !this_hours_between. unfold Qeq, Qopp. cbn [Qnum Qden]. lia.
Qed.

(** ** The window *)

(** X12: whenever the window is resolved, its end is the instant read from the
    clock, its start lies exactly [days_back] days before its end and is a
    representable instant, the clock has been read once, and the start
    precedes the end exactly when [days_back] is not negative. *)
Theorem resolve_window_returns (rt : Runtime) (days_back : Z)
    (w w' : world) (window : TimeWindow) :
  resolve_window rt days_back w = (w', Return window) ->
  window_end window = clock rt (clock_reads w)
  /\ window_start window = window_end window - days_back * US_PER_DAY
  /\ 0 <= window_start window <= MAX_US
  /\ (window_start window <= window_end window <-> 0 <= days_back)
  /\ w' = World (stdout w) (S (clock_reads w)).
Proof.
  unfold resolve_window, bind, call, ret, datetime_now, timedelta_days,
    datetime_sub.
  destruct (Z.leb_spec (Z.abs days_back) MAX_DELTA_DAYS);
    [|destruct ((- 2 ^ 31 <=? days_back) && (days_back <? 2 ^ 31));
      discriminate].
  destruct (Z.leb_spec 0 (clock rt (clock_reads w) - days_back * US_PER_DAY));
    [|discriminate].
  destruct (Z.leb_spec (clock rt (clock_reads w) - days_back * US_PER_DAY)
              MAX_US); [|discriminate].
  simpl. intros Hr. injection Hr as <- <-. simpl.
  repeat split; try lia; unfold US_PER_DAY, US_PER_SECOND in *; lia.
Qed.

Lemma resolve_window_returns_witness :
  window_end {| window_start := Fixture.start; window_end := Fixture.now |}
  = clock Fixture.rt (clock_reads Fixture.w0)
  /\ window_start {| window_start := Fixture.start; window_end := Fixture.now |}
     = window_end {| window_start := Fixture.start; window_end := Fixture.now |}
       - 30 * US_PER_DAY
  /\ 0 <= window_start
            {| window_start := Fixture.start; window_end := Fixture.now |}
       <= MAX_US
  /\ (window_start {| window_start := Fixture.start; window_end := Fixture.now |}
      <= window_end {| window_start := Fixture.start; window_end := Fixture.now |}
      <-> 0 <= 30)
  /\ World [] 1 = World (stdout Fixture.w0) (S (clock_reads Fixture.w0)).
Proof.
  exact (resolve_window_returns Fixture.rt 30 Fixture.w0 (World [] 1)
           {| window_start := Fixture.start; window_end := Fixture.now |}
           eq_refl).
Defined.

(** ** What the reducers do to the interpreter state *)

Lemma only_prints_refl (w : world) : only_prints w w.
Proof. split; [reflexivity|]. exists []. now rewrite app_nil_r. Qed.

Lemma only_prints_trans (w1 w2 w3 : world) :
  only_prints w1 w2 -> only_prints w2 w3 -> only_prints w1 w3.
Proof.
  intros [Hc1 [o1 Ho1]] [Hc2 [o2 Ho2]]. split; [congruence|].
  exists (o1 ++ o2). now rewrite Ho2, Ho1, app_assoc.
Qed.

Lemma only_prints_print (s : string) (w : world) :
  only_prints w (fst (print s w)).
Proof. split; [reflexivity|]. now exists [s]. Qed.

Lemma get_repository_id_world (rt : Runtime) (self : DORAMetricsCalculator)
    (project_name repository_name : string) (w : world) :
  fst (get_repository_id rt self project_name repository_name w) = w.
Proof.
  unfold get_repository_id, bind, call, ret.
  destruct (get_git_client (connection self)) as [git|e]; [|reflexivity].
  now destruct (get_repositories git project_name).
Qed.

Lemma for_builds_only_prints (client : BuildClient) (project_name : string)
    (repo_id : option string) (builds : list Build) (lead_times : list Qc)
    (w : world) :
  only_prints w (fst (for_builds client project_name repo_id builds lead_times w)).
Proof.
  revert lead_times w. induction builds as [|build rest IH];
    intros lead_times w; simpl; [apply only_prints_refl|].
  destruct (truthy repo_id); [|apply IH].
  destruct (try_build_changes client project_name build lead_times)
    as [lead_times' [[]|e]]; [apply IH|].
  unfold bind. simpl.
  eapply only_prints_trans; [|apply IH].
  split; [reflexivity|]. eexists. reflexivity.
Qed.

(** The two counting reducers never print and never read the clock. *)
Lemma counting_reducers_world (self : DORAMetricsCalculator)
    (project_name repository_name branch_name : string)
    (start_date end_date : datetime) (w : world) :
  fst (get_deployment_frequency self project_name repository_name branch_name
         start_date end_date w) = w
  /\ fst (get_change_failure_rate self project_name repository_name
            branch_name start_date end_date w) = w.
Proof.
  unfold get_deployment_frequency, get_change_failure_rate, bind, call, ret.
  destruct (get_build_client (connection self)) as [client|e];
    [|split; reflexivity].
  split.
  - now destruct (get_builds client project_name start_date end_date
                    "completed" (Some "succeeded") (branch_ref branch_name)).
  - now destruct (get_builds client project_name start_date end_date
                    "completed" None (branch_ref branch_name)).
Qed.

Lemma lead_time_only_prints (rt : Runtime) (self : DORAMetricsCalculator)
    (project_name repository_name branch_name : string)
    (start_date end_date : datetime) (w : world) :
  only_prints w
    (fst (get_lead_time_for_changes rt self project_name repository_name
            branch_name start_date end_date w)).
Proof.
  unfold get_lead_time_for_changes, get_repository_id, bind, call, ret.
  destruct (get_build_client (connection self)) as [client|e];
    [|apply only_prints_refl].
  destruct (get_git_client (connection self)) as [git|e];
    [|apply only_prints_refl].
  destruct (get_repositories git project_name) as [listed|e];
    [|apply only_prints_refl].
  destruct (get_builds client project_name start_date end_date "completed"
              (Some "succeeded") (branch_ref branch_name)) as [builds|e];
    [|apply only_prints_refl].
  pose proof (for_builds_only_prints client project_name
                (find_repository rt listed repository_name) builds [] w) as H.
  now destruct (for_builds client project_name
                  (find_repository rt listed repository_name) builds [] w)
    as [w' [lead_times|e]].
Qed.

Lemma time_to_restore_body_world (rt : Runtime) (self : DORAMetricsCalculator)
    (project_name repository_name branch_name : string)
    (start_date end_date : datetime) (w : world) :
  fst (time_to_restore_body rt self project_name repository_name branch_name
         start_date end_date w) = w.
Proof.
  unfold time_to_restore_body, get_repository_id, bind, call, ret.
  destruct (get_work_item_tracking_client (connection self)) as [client|e];
    [|reflexivity].
  destruct (get_git_client (connection self)) as [git|e]; [|reflexivity].
  destruct (import_Wiql rt) as [[]|e]; [|reflexivity].
  destruct (get_repositories git project_name) as [listed|e]; [|reflexivity].
  destruct (query_by_wiql client _) as [refs|e]; [|reflexivity].
  destruct refs as [|ref rest]; [reflexivity|].
  pose proof (for_work_items_world rt client (ref :: rest) [] w) as H.
  now destruct (for_work_items rt client (ref :: rest) [] w) as [w' [times|e]].
Qed.

(** Time to restore prints at most one line: nothing when its body returns,
    and the one diagnostic when its body raises. *)
Lemma time_to_restore_world (rt : Runtime) (self : DORAMetricsCalculator)
    (project_name repository_name branch_name : string)
    (start_date end_date : datetime) (w : world) :
  let w' := fst (get_time_to_restore rt self project_name repository_name
                   branch_name start_date end_date w) in
  w' = w \/ exists e, w' = diagnosed w e.
Proof.
  unfold get_time_to_restore, try_except.
  pose proof (time_to_restore_body_world rt self project_name repository_name
                branch_name start_date end_date w) as H.
  destruct (time_to_restore_body rt self project_name repository_name
              branch_name start_date end_date w) as [w1 [v|e]];
    simpl in *; subst w1.
  - now left.
  - right. now exists e.
Qed.

(** X13: whatever the collaborators do and whether it returns or raises,
    [get_all_metrics] reads the clock exactly once, and nothing that was on
    standard output before the call is lost or altered: the call only
    appends to it. *)
Theorem get_all_metrics_clock_and_output
    (rt : Runtime) (self : DORAMetricsCalculator)
    (project_name repository_name branch_name : string) (days_back : Z)
    (w : world) :
  let w' := fst (get_all_metrics rt self project_name repository_name
                   branch_name days_back w) in
  clock_reads w' = S (clock_reads w)
  /\ exists out, stdout w' = stdout w ++ out.
Proof.
  assert (Hstep : forall w0 w', only_prints w0 w' ->
            clock_reads w0 = S (clock_reads w) ->
            (exists out, stdout w0 = stdout w ++ out) ->
            clock_reads w' = S (clock_reads w)
            /\ exists out, stdout w' = stdout w ++ out).
  { intros w0 w' [Hc [o Ho]] Hc0 [o0 Ho0]. split; [congruence|].
    exists (o0 ++ o). now rewrite Ho, Ho0, app_assoc. }
  unfold get_all_metrics.
  set (w0 := World (stdout w) (S (clock_reads w))).
  assert (H0 : clock_reads w0 = S (clock_reads w)) by reflexivity.
  assert (O0 : exists out, stdout w0 = stdout w ++ out)
    by (exists []; simpl; now rewrite app_nil_r).
  unfold bind at 1.
  unfold resolve_window, bind, call, ret, datetime_now. fold w0.
  destruct (timedelta_days days_back) as [delta|e];
    [|simpl; apply (Hstep w0 w0 (only_prints_refl w0) H0 O0)].
  destruct (datetime_sub (clock rt (clock_reads w)) delta) as [start_date|e];
    [|simpl; apply (Hstep w0 w0 (only_prints_refl w0) H0 O0)].
  simpl window_start. simpl window_end.
  set (end_date := clock rt (clock_reads w)).
  destruct (counting_reducers_world self project_name repository_name
              branch_name start_date end_date w0) as [Hd _].
  destruct (get_deployment_frequency self project_name repository_name
              branch_name start_date end_date w0) as [w1 [d|e]];
    simpl in Hd; subst w1;
    [|simpl; apply (Hstep w0 w0 (only_prints_refl w0) H0 O0)].
  pose proof (lead_time_only_prints rt self project_name repository_name
                branch_name start_date end_date w0) as Hl.
  destruct (get_lead_time_for_changes rt self project_name repository_name
              branch_name start_date end_date w0) as [w2 [l|e]];
    simpl in Hl; [|simpl; apply (Hstep w0 w2 Hl H0 O0)].
  destruct (Hstep w0 w2 Hl H0 O0) as [H2 O2].
  destruct (counting_reducers_world self project_name repository_name
              branch_name start_date end_date w2) as [_ Hf].
  destruct (get_change_failure_rate self project_name repository_name
              branch_name start_date end_date w2) as [w3 [c|e]];
    simpl in Hf; subst w3; [|simpl; split; assumption].
  pose proof (time_to_restore_world rt self project_name repository_name
                branch_name start_date end_date w2) as Ht.
  destruct (get_time_to_restore rt self project_name repository_name
              branch_name start_date end_date w2) as [w4 [t|e]];
    simpl in Ht; simpl;
    (destruct Ht as [->|[e' ->]];
     [split; assumption
     |apply (Hstep w2 _ (only_prints_print _ w2)); [exact H2|exact O2]]).
Qed.

(** ** The report *)

Lemma get_all_metrics_returns_report
    (rt : Runtime) (self : DORAMetricsCalculator)
    (project_name repository_name branch_name : string) (days_back : Z)
    (w w' : world) (report : gmap string Qc) :
  get_all_metrics rt self project_name repository_name branch_name
    days_back w = (w', Return report) ->
  exists d l c t, report = metrics_report d l c t.
Proof.
  unfold get_all_metrics, bind, ret.
  destruct (resolve_window rt days_back w) as [w0 [window|e]]; [|discriminate].
  destruct (get_deployment_frequency _ _ _ _ _ _ w0) as [w1 [d|e]];
    [|discriminate].
  destruct (get_lead_time_for_changes _ _ _ _ _ _ _ w1) as [w2 [l|e]];
    [|discriminate].
  destruct (get_change_failure_rate _ _ _ _ _ _ w2) as [w3 [c|e]];
    [|discriminate].
  destruct (get_time_to_restore _ _ _ _ _ _ _ w3) as [w4 [t|e]];
    [|discriminate].
  intros H. injection H as _ <-. now exists d, l, c, t.
Qed.

(** X14: whenever [get_all_metrics] returns, the dictionary has exactly the four
    keys [deployment_frequency], [lead_time_for_changes],
    [change_failure_rate] and [time_to_restore]: no metric is ever absent,
    a metric without data being present with the value 0. *)
Theorem get_all_metrics_keys
    (rt : Runtime) (self : DORAMetricsCalculator)
    (project_name repository_name branch_name : string) (days_back : Z)
    (w w' : world) (report : gmap string Qc) :
  get_all_metrics rt self project_name repository_name branch_name
    days_back w = (w', Return report) ->
  dom report
  = ({[ "deployment_frequency"; "lead_time_for_changes";
        "change_failure_rate"; "time_to_restore" ]} : gset string).
Proof.
  intros H. apply get_all_metrics_returns_report in H as (d & l & c & t & ->).
  unfold metrics_report. rewrite !dom_insert_L, dom_empty_L. set_solver.
Qed.

Lemma get_all_metrics_calc_a :
  get_all_metrics Fixture.rt Fixture.calc_a "Contoso" "WebApp" "main" 30
    Fixture.w0
  = (World [] 1,
     Return (metrics_report (Q2Qc (5 # 2)) 0%Qc (Qc_of_Z 30) (Qc_of_Z 5))).
Proof.
  rewrite (get_all_metrics_steps Fixture.rt Fixture.calc_a "Contoso" "WebApp"
             "main" 30 Fixture.w0 (World [] 1)
             {| window_start := Fixture.start; window_end := Fixture.now |}
             eq_refl).
  unfold bind. simpl window_start. simpl window_end.
  replace (get_deployment_frequency Fixture.calc_a "Contoso" "WebApp" "main"
             Fixture.start Fixture.now (World [] 1))
    with (World [] 1, Return (Q2Qc (5 # 2)))
    by (vm_compute; apply returns_same_value; reflexivity).
  replace (get_lead_time_for_changes Fixture.rt Fixture.calc_a "Contoso" "WebApp" "main"
             Fixture.start Fixture.now (World [] 1))
    with (World [] 1, Return 0%Qc)
    by (vm_compute; apply returns_same_value; reflexivity).
  replace (get_change_failure_rate Fixture.calc_a "Contoso" "WebApp" "main"
             Fixture.start Fixture.now (World [] 1))
    with (World [] 1, Return (Qc_of_Z 30))
    by (vm_compute; apply returns_same_value; reflexivity).
  replace (get_time_to_restore Fixture.rt Fixture.calc_a "Contoso" "WebApp"
             "main" Fixture.start Fixture.now (World [] 1))
    with (World [] 1, Return (Qc_of_Z 5))
    by (vm_compute; apply returns_same_value; reflexivity).
  reflexivity.
Defined.

Lemma get_all_metrics_keys_witness :
  dom (metrics_report (Q2Qc (5 # 2)) 0%Qc (Qc_of_Z 30) (Qc_of_Z 5))
  = ({[ "deployment_frequency"; "lead_time_for_changes";
        "change_failure_rate"; "time_to_restore" ]} : gset string).
Proof.
  exact (get_all_metrics_keys Fixture.rt Fixture.calc_a "Contoso" "WebApp"
           "main" 30 Fixture.w0 (World [] 1) _ get_all_metrics_calc_a).
Defined.

(** ** The repository name *)

(** X11: deployment frequency, change failure rate and time to restore do not
    depend on the repository name: builds and incidents are selected by
    project, branch and window only, so those of every repository of the
    project count. *)
Theorem repository_name_unused
    (rt : Runtime) (self : DORAMetricsCalculator)
    (project_name name1 name2 branch_name : string)
    (start_date end_date : datetime) (w : world) :
  get_deployment_frequency self project_name name1 branch_name
    start_date end_date w
  = get_deployment_frequency self project_name name2 branch_name
      start_date end_date w
  /\ get_change_failure_rate self project_name name1 branch_name
       start_date end_date w
     = get_change_failure_rate self project_name name2 branch_name
         start_date end_date w
  /\ get_time_to_restore rt self project_name name1 branch_name
       start_date end_date w
     = get_time_to_restore rt self project_name name2 branch_name
         start_date end_date w.
Proof.
  split; [reflexivity|]. split; [reflexivity|].
  unfold get_time_to_restore, try_except, time_to_restore_body,
    get_repository_id, bind, call, ret.
  destruct (get_work_item_tracking_client (connection self)) as [client|e];
    [|reflexivity].
  destruct (get_git_client (connection self)) as [git|e]; [|reflexivity].
  destruct (import_Wiql rt) as [[]|e]; [|reflexivity].
  now destruct (get_repositories git project_name) as [listed|e].
Qed.

(** ** The command-line program *)

Lemma metrics_report_lookup (d l c t : Qc) :
  metrics_report d l c t !! "deployment_frequency" = Some d
  /\ metrics_report d l c t !! "lead_time_for_changes" = Some l
  /\ metrics_report d l c t !! "change_failure_rate" = Some c
  /\ metrics_report d l c t !! "time_to_restore" = Some t.
Proof.
  unfold metrics_report. split; [|split; [|split]].
  - apply lookup_insert_eq.
  - rewrite lookup_insert_ne by discriminate. apply lookup_insert_eq.
  - rewrite !lookup_insert_ne by discriminate. apply lookup_insert_eq.
  - rewrite !lookup_insert_ne by discriminate. apply lookup_insert_eq.
Qed.

(** X15: when [get_all_metrics] raises, the program catches the exception: it
    prints the single line "Error calculating metrics: " followed by the
    message, prints no metric, and ends normally. *)
Theorem program_reports_failure
    (rt : Runtime)
    (new_calculator : string -> string -> outcome DORAMetricsCalculator)
    (format_2f : Qc -> string)
    (organization_url personal_access_token project_name repository_name
       branch_name : string) (days_back : Z)
    (calculator : DORAMetricsCalculator) (e : exn) (w w1 : world) :
  new_calculator organization_url personal_access_token = Return calculator ->
  get_all_metrics rt calculator project_name repository_name branch_name
    days_back w = (w1, Raise e) ->
  program rt new_calculator format_2f organization_url personal_access_token
    project_name repository_name branch_name days_back w
  = (World (stdout w1 ++ ["Error calculating metrics: " +:+ str e])
       (clock_reads w1),
     Return tt).
Proof.
  intros Hn Hm. unfold program, program_try, bind, call.
  rewrite Hn, Hm. reflexivity.
Qed.

Lemma program_reports_failure_witness :
  program Fixture.rt (Fixture.new_calculator Fixture.calc_down)
    Fixture.format_2f "https://dev.azure.com/contoso" "pat" "Contoso"
    "WebApp" "main" 30 Fixture.w0
  = (World ["Error calculating metrics: connection refused"] 1, Return tt).
Proof.
  exact (program_reports_failure Fixture.rt
           (Fixture.new_calculator Fixture.calc_down) Fixture.format_2f
           "https://dev.azure.com/contoso" "pat" "Contoso" "WebApp" "main" 30
           Fixture.calc_down Fixture.unavailable Fixture.w0 (World [] 1)
           eq_refl eq_refl).
Defined.

(** X16: when [get_all_metrics] returns, the program prints exactly six lines,
    the heading, the period and one line for each of the four metrics of the
    report, and ends normally: the four lookups never fail, so no error line
    is printed. *)
Theorem program_prints_report
    (rt : Runtime)
    (new_calculator : string -> string -> outcome DORAMetricsCalculator)
    (format_2f : Qc -> string)
    (organization_url personal_access_token project_name repository_name
       branch_name : string) (days_back : Z)
    (calculator : DORAMetricsCalculator) (report : gmap string Qc)
    (w w1 : world) :
  new_calculator organization_url personal_access_token = Return calculator ->
  get_all_metrics rt calculator project_name repository_name branch_name
    days_back w = (w1, Return report) ->
  exists d l c t,
    report = metrics_report d l c t
    /\ program rt new_calculator format_2f organization_url
         personal_access_token project_name repository_name branch_name
         days_back w
       = (World
            (stdout w1
             ++ [ nl +:+ "DORA Metrics for " +:+ branch_name
                  +:+ " branch in " +:+ repository_name +:+ ":";
                  "Time Period: Last " +:+ pretty days_back +:+ " days";
                  "Deployment Frequency: " +:+ format_2f d
                  +:+ " deployments/day";
                  "Lead Time for Changes: " +:+ format_2f l +:+ " hours";
                  "Change Failure Rate: " +:+ format_2f c +:+ "%";
                  "Time to Restore: " +:+ format_2f t +:+ " hours" ])
            (clock_reads w1),
          Return tt).
Proof.
  intros Hn Hm.
  destruct (get_all_metrics_returns_report _ _ _ _ _ _ _ _ _ Hm)
    as (d & l & c & t & ->).
  exists d, l, c, t. split; [reflexivity|].
  destruct (metrics_report_lookup d l c t) as (Hd & Hl & Hc & Ht).
  unfold program, program_try, bind, call. rewrite Hn, Hm.
  unfold next, say_metric, say, print. simpl.
  rewrite Hd. simpl. rewrite Hl. simpl. rewrite Hc. simpl. rewrite Ht. simpl.
  now rewrite <- !app_assoc.
Qed.

Lemma program_prints_report_witness :
  exists d l c t,
    metrics_report (Q2Qc (5 # 2)) 0%Qc (Qc_of_Z 30) (Qc_of_Z 5)
    = metrics_report d l c t
    /\ program Fixture.rt (Fixture.new_calculator Fixture.calc_a)
         Fixture.format_2f "https://dev.azure.com/contoso" "pat" "Contoso"
         "WebApp" "main" 30 Fixture.w0
       = (World
            (stdout (World [] 1)
             ++ [ nl +:+ "DORA Metrics for " +:+ "main"
                  +:+ " branch in " +:+ "WebApp" +:+ ":";
                  "Time Period: Last " +:+ pretty 30 +:+ " days";
                  "Deployment Frequency: " +:+ Fixture.format_2f d
                  +:+ " deployments/day";
                  "Lead Time for Changes: " +:+ Fixture.format_2f l
                  +:+ " hours";
                  "Change Failure Rate: " +:+ Fixture.format_2f c +:+ "%";
                  "Time to Restore: " +:+ Fixture.format_2f t +:+ " hours" ])
            (clock_reads (World [] 1)),
          Return tt).
Proof.
  exact (program_prints_report Fixture.rt
           (Fixture.new_calculator Fixture.calc_a) Fixture.format_2f
           "https://dev.azure.com/contoso" "pat" "Contoso" "WebApp" "main" 30
           Fixture.calc_a _ Fixture.w0 (World [] 1)
           eq_refl get_all_metrics_calc_a).
Defined.

(** The lines of that run. *)
Example program_output :
  program Fixture.rt (Fixture.new_calculator Fixture.calc_a)
    Fixture.format_2f "https://dev.azure.com/contoso" "pat" "Contoso"
    "WebApp" "main" 30 Fixture.w0
  = (World [ nl +:+ "DORA Metrics for main branch in WebApp:";
             "Time Period: Last 30 days";
             "Deployment Frequency: 2.50 deployments/day";
             "Lead Time for Changes: 0.00 hours";
             "Change Failure Rate: 30.00%";
             "Time to Restore: 5.00 hours" ] 1,
     Return tt).
Proof. vm_compute. reflexivity. Qed.

(** ** Diagnostics of the lead-time reducer *)

Lemma for_changes_outcome (build : Build) (changes : list Change)
    (lead_times : list Qc) :
  snd (for_changes build changes lead_times)
  = snd (for_changes build changes []).
Proof.
  revert lead_times.
  assert (H : forall acc1 acc2,
            snd (for_changes build changes acc1)
            = snd (for_changes build changes acc2)).
  { induction changes as [|change rest IH]; intros acc1 acc2; simpl;
      [reflexivity|].
    destruct (timestamp change); [apply IH|reflexivity|apply IH]. }
  intros lead_times. apply H.
Qed.

Lemma try_build_changes_outcome (client : BuildClient) (project_name : string)
    (build : Build) (lead_times : list Qc) :
  snd (try_build_changes client project_name build lead_times)
  = snd (try_build_changes client project_name build []).
Proof.
  unfold try_build_changes.
  destruct (get_build_changes client project_name (build_id build));
    [apply for_changes_outcome|reflexivity].
Qed.

Lemma for_builds_diagnostics (client : BuildClient) (project_name : string)
    (repo_id : option string) (builds : list Build) (lead_times : list Qc)
    (w : world) :
  truthy repo_id = true ->
  exists lead_times',
    for_builds client project_name repo_id builds lead_times w
    = (World (stdout w ++ build_diagnostics client project_name builds)
         (clock_reads w),
       Return lead_times').
Proof.
  intros Ht. revert lead_times w.
  induction builds as [|build rest IH]; intros lead_times w; simpl.
  - exists lead_times. unfold ret. rewrite app_nil_r. now destruct w.
  - rewrite Ht. unfold build_diagnostics. simpl. fold (build_diagnostics client project_name rest).
    unfold build_failure.
    pose proof (try_build_changes_outcome client project_name build lead_times)
      as Ho.
    destruct (try_build_changes client project_name build lead_times)
      as [lead_times1 r1].
    destruct (try_build_changes client project_name build [])
      as [lead_times0 r0].
    simpl in Ho. subst r0. destruct r1 as [[]|e].
    + simpl. apply IH.
    + unfold bind, print.
      destruct (IH lead_times1
                  (World (stdout w ++ ["Error processing build "
                                       +:+ pretty (build_id build)
                                       +:+ ": " +:+ str e])
                     (clock_reads w))) as [lt' ->].
      exists lt'. simpl. now rewrite <- app_assoc.
Qed.

(** X7: once the listing has returned and the repository has resolved to a
    non-empty id, the lead-time reducer returns whatever the per-build
    fetches do, and what it prints is exactly one diagnostic for each build
    whose processing raised, in listing order. *)
Theorem lead_time_diagnostics (rt : Runtime)
    (self : DORAMetricsCalculator)
    (project_name repository_name branch_name : string)
    (start_date end_date : datetime)
    (client : BuildClient) (git : GitClient) (listed : list GitRepository)
    (builds : list Build) (w : world) :
  get_build_client (connection self) = Return client ->
  get_git_client (connection self) = Return git ->
  get_repositories git project_name = Return listed ->
  get_builds client project_name start_date end_date "completed"
    (Some "succeeded") (branch_ref branch_name) = Return builds ->
  truthy (find_repository rt listed repository_name) = true ->
  exists value,
    get_lead_time_for_changes rt self project_name repository_name branch_name
      start_date end_date w
    = (World (stdout w ++ build_diagnostics client project_name builds)
         (clock_reads w),
       Return value).
Proof.
  intros Hc Hg Hl Hb Ht.
  unfold get_lead_time_for_changes, get_repository_id, bind, call, ret.
  rewrite Hc, Hg, Hl, Hb.
  destruct (for_builds_diagnostics client project_name
              (find_repository rt listed repository_name) builds [] w Ht)
    as [lead_times ->].
  eauto.
Qed.

Lemma lead_time_diagnostics_witness :
  exists value,
    get_lead_time_for_changes Fixture.rt Fixture.calc_c "Contoso" "WebApp" "main"
      Fixture.start Fixture.now Fixture.w0
    = (World (stdout Fixture.w0
              ++ build_diagnostics Fixture.build_client_c "Contoso"
                   [Fixture.b201; Fixture.b202])
         (clock_reads Fixture.w0),
       Return value).
Proof.
  exact (lead_time_diagnostics Fixture.rt Fixture.calc_c "Contoso" "WebApp" "main"
           Fixture.start Fixture.now Fixture.build_client_c
           Fixture.git_client Fixture.repositories
           [Fixture.b201; Fixture.b202] Fixture.w0
           eq_refl eq_refl eq_refl eq_refl eq_refl).
Defined.

Example build_diagnostics_of_store_c :
  build_diagnostics Fixture.build_client_c "Contoso"
    [Fixture.b201; Fixture.b202]
  = ["Error processing build 201: connection refused"].
Proof. reflexivity. Qed.
